(** * GT511C3 fingerprint-scanner pseudo-TA: protocol engine

    Shallow embedding of [core/arch/arm/pta/pta_gt511c3.c]: the status
    translator, the additive checksum, the command/response/data frame
    layouts, the byte-at-a-time receive routine and the command handlers,
    followed by the properties established about them.

    Conventions.
    - C integers are [Z]; every conversion to a fixed-width type is written
      out ([uint8_t], [uint16_t], [int16_t], [uint32_t], [size_t]).
    - The file is written for 32-bit ARM: [gt511C3_recv_data] passes the
      address of a [size_t] where a [uint32_t *] is expected and
      [FIELD_OFFSET] casts a pointer to [uint32_t], so [size_t] is the
      32-bit unsigned type here.
    - Memory buffers are [list byte] whose length is the size of the C
      object; an access outside the object is the outcome [Fault].
    - The UART is a pair of byte streams; reading from an exhausted receive
      line is the outcome [Blocked] (the blocking [getchar] never returns). *)

From Stdlib Require Import ZArith Lia Bool List.
From Stdlib Require Import Init.Byte Strings.Byte.
From stdpp Require Import base list.
Import ListNotations.

Open Scope Z_scope.

(** ** Fixed-width integer conversions *)

Definition uint8_t (z : Z) : Z := z mod 256.
Definition uint16_t (z : Z) : Z := z mod 65536.
Definition uint32_t (z : Z) : Z := z mod 4294967296.
Definition size_t (z : Z) : Z := z mod 4294967296.

(** Conversion to [int16_t]: two's complement wrap-around. *)
Definition int16_t (z : Z) : Z := (z + 32768) mod 65536 - 32768.

(** The value of a stored byte, as [uint8_t]. *)
Definition u8 (b : byte) : Z := Z.of_N (Byte.to_N b).

(** The byte holding the low eight bits of an integer. *)
Definition byte_of_Z (z : Z) : byte :=
  match Byte.of_N (Z.to_N (uint8_t z)) with
  | Some b => b
  | None => x00
  end.

(** ** Result codes *)

(** The numeric values of the [TEE_Result] macros live in
    [tee_api_defines.h], which is not part of this source file; the driver
    only ever returns these names and compares against [TEE_SUCCESS], so the
    result codes are an enumerated type with one constructor per macro. *)
Inductive TEE_Result : Type :=
  | TEE_SUCCESS
  | TEE_ERROR_GENERIC
  | TEE_ERROR_ACCESS_DENIED
  | TEE_ERROR_CANCEL
  | TEE_ERROR_BAD_PARAMETERS
  | TEE_ERROR_BAD_STATE
  | TEE_ERROR_NOT_SUPPORTED
  | TEE_ERROR_NO_DATA
  | TEE_ERROR_OUT_OF_MEMORY
  | TEE_ERROR_BUSY
  | TEE_ERROR_COMMUNICATION
  | TEE_ERROR_SHORT_BUFFER.

Definition TEE_Result_eqb (a b : TEE_Result) : bool :=
  match a, b with
  | TEE_SUCCESS, TEE_SUCCESS
  | TEE_ERROR_GENERIC, TEE_ERROR_GENERIC
  | TEE_ERROR_ACCESS_DENIED, TEE_ERROR_ACCESS_DENIED
  | TEE_ERROR_CANCEL, TEE_ERROR_CANCEL
  | TEE_ERROR_BAD_PARAMETERS, TEE_ERROR_BAD_PARAMETERS
  | TEE_ERROR_BAD_STATE, TEE_ERROR_BAD_STATE
  | TEE_ERROR_NOT_SUPPORTED, TEE_ERROR_NOT_SUPPORTED
  | TEE_ERROR_NO_DATA, TEE_ERROR_NO_DATA
  | TEE_ERROR_OUT_OF_MEMORY, TEE_ERROR_OUT_OF_MEMORY
  | TEE_ERROR_BUSY, TEE_ERROR_BUSY
  | TEE_ERROR_COMMUNICATION, TEE_ERROR_COMMUNICATION
  | TEE_ERROR_SHORT_BUFFER, TEE_ERROR_SHORT_BUFFER => true
  | _, _ => false
  end.

(** [status != TEE_SUCCESS] *)
Definition failed (status : TEE_Result) : bool :=
  negb (TEE_Result_eqb status TEE_SUCCESS).

(** ** Constants of the driver *)

Definition GT511C3_RESET_BAUDRATE : Z := 9600.
Definition GT511C3_MAX_BAUDRATE : Z := 115200.
Definition GT511C3_MAX_PAYLOAD : Z := 64 * 1024.

(** [enum gt511C3_status] *)
Definition GT511C3_SUCCESS : Z := 0x0000.
Definition GT511C3_STATUS_TIMEOUT : Z := 0x1001.
Definition GT511C3_STATUS_INVALID_BAUDRATE : Z := 0x1002.
Definition GT511C3_STATUS_INVALID_POS : Z := 0x1003.
Definition GT511C3_STATUS_IS_NOT_USED : Z := 0x1004.
Definition GT511C3_STATUS_IS_ALREADY_USED : Z := 0x1005.
Definition GT511C3_STATUS_COMM_ERR : Z := 0x1006.
Definition GT511C3_STATUS_VERIFY_FAILED : Z := 0x1007.
Definition GT511C3_STATUS_IDENTIFY_FAILED : Z := 0x1008.
Definition GT511C3_STATUS_DB_IS_FULL : Z := 0x1009.
Definition GT511C3_STATUS_DB_IS_EMPTY : Z := 0x100A.
Definition GT511C3_STATUS_TURN_ERR : Z := 0x100B.
Definition GT511C3_STATUS_BAD_FINGER : Z := 0x100C.
Definition GT511C3_STATUS_ENROLL_FAILED : Z := 0x100D.
Definition GT511C3_STATUS_IS_NOT_SUPPORTED : Z := 0x100E.
Definition GT511C3_STATUS_DEV_ERR : Z := 0x100F.
Definition GT511C3_STATUS_CAPTURE_CANCELED : Z := 0x1010.
Definition GT511C3_STATUS_INVALID_PARAM : Z := 0x1011.
Definition GT511C3_STATUS_FINGER_IS_NOT_PRESSED : Z := 0x1012.
Definition GT511C3_STATUS_INVALID : Z := 0xFFFF.

(** [enum gt511C3_commands] (the codes the driver and the scenarios use) *)
Definition GT511C3_CMD_OPEN : Z := 0x01.
Definition GT511C3_CMD_CLOSE : Z := 0x02.
Definition GT511C3_CMD_GET_ENROLL_COUNT : Z := 0x20.

(** [enum gt511C3_command_frame_codes] *)
Definition GT511C3_CMD_START_CODE1 : Z := 0x55.
Definition GT511C3_CMD_START_CODE2 : Z := 0xAA.
Definition GT511C3_CMD_DEVICE_ID : Z := 0x0001.

(** [enum GT511C3_response_frame_codes] *)
Definition GT511C3_RSP_START_CODE1 : Z := 0x55.
Definition GT511C3_RSP_START_CODE2 : Z := 0xAA.
Definition GT511C3_RSP_DEVICE_ID : Z := 0x0001.
Definition GT511C3_RSP_ACK : Z := 0x30.
Definition GT511C3_RSP_NACK : Z := 0x31.

(** [enum GT511C3_data_frame_codes] *)
Definition GT511C3_DATA_START_CODE1 : Z := 0x5A.
Definition GT511C3_DATA_START_CODE2 : Z := 0xA5.
Definition GT511C3_DATA_DEVICE_ID : Z := 0x0001.

(** ** Status translator *)

(** [gt511C3_to_tee]: the [switch] over the status, case by case in source
    order, with the [default] branch last. *)
Definition gt511C3_to_tee (status : Z) : TEE_Result :=
  if status =? GT511C3_SUCCESS then TEE_SUCCESS
  else if status =? GT511C3_STATUS_TIMEOUT then TEE_ERROR_COMMUNICATION
  else if status =? GT511C3_STATUS_INVALID_BAUDRATE then TEE_ERROR_BAD_PARAMETERS
  else if status =? GT511C3_STATUS_INVALID_POS then TEE_ERROR_BAD_STATE
  else if status =? GT511C3_STATUS_IS_NOT_USED then TEE_ERROR_BAD_STATE
  else if status =? GT511C3_STATUS_IS_ALREADY_USED then TEE_ERROR_BUSY
  else if status =? GT511C3_STATUS_COMM_ERR then TEE_ERROR_COMMUNICATION
  else if status =? GT511C3_STATUS_VERIFY_FAILED then TEE_ERROR_ACCESS_DENIED
  else if status =? GT511C3_STATUS_IDENTIFY_FAILED then TEE_ERROR_ACCESS_DENIED
  else if status =? GT511C3_STATUS_DB_IS_FULL then TEE_ERROR_OUT_OF_MEMORY
  else if status =? GT511C3_STATUS_DB_IS_EMPTY then TEE_ERROR_NO_DATA
  else if status =? GT511C3_STATUS_TURN_ERR then TEE_ERROR_BAD_STATE
  else if status =? GT511C3_STATUS_BAD_FINGER then TEE_ERROR_BAD_STATE
  else if status =? GT511C3_STATUS_ENROLL_FAILED then TEE_ERROR_BAD_STATE
  else if status =? GT511C3_STATUS_IS_NOT_SUPPORTED then TEE_ERROR_NOT_SUPPORTED
  else if status =? GT511C3_STATUS_DEV_ERR then TEE_ERROR_BAD_STATE
  else if status =? GT511C3_STATUS_CAPTURE_CANCELED then TEE_ERROR_CANCEL
  else if status =? GT511C3_STATUS_INVALID_PARAM then TEE_ERROR_BAD_PARAMETERS
  else if status =? GT511C3_STATUS_FINGER_IS_NOT_PRESSED then TEE_ERROR_BAD_STATE
  else if status =? GT511C3_STATUS_INVALID then TEE_ERROR_GENERIC
  else TEE_ERROR_GENERIC.

(** The translation table as the specification words it: the eighteen
    device statuses of the error table with their generic kinds, and the
    unclassified error for the sentinel and for everything else. *)
Definition status_table : list (Z * TEE_Result) :=
  [ (GT511C3_STATUS_TIMEOUT, TEE_ERROR_COMMUNICATION);
    (GT511C3_STATUS_COMM_ERR, TEE_ERROR_COMMUNICATION);
    (GT511C3_STATUS_INVALID_BAUDRATE, TEE_ERROR_BAD_PARAMETERS);
    (GT511C3_STATUS_INVALID_PARAM, TEE_ERROR_BAD_PARAMETERS);
    (GT511C3_STATUS_INVALID_POS, TEE_ERROR_BAD_STATE);
    (GT511C3_STATUS_IS_NOT_USED, TEE_ERROR_BAD_STATE);
    (GT511C3_STATUS_TURN_ERR, TEE_ERROR_BAD_STATE);
    (GT511C3_STATUS_BAD_FINGER, TEE_ERROR_BAD_STATE);
    (GT511C3_STATUS_ENROLL_FAILED, TEE_ERROR_BAD_STATE);
    (GT511C3_STATUS_DEV_ERR, TEE_ERROR_BAD_STATE);
    (GT511C3_STATUS_FINGER_IS_NOT_PRESSED, TEE_ERROR_BAD_STATE);
    (GT511C3_STATUS_IS_ALREADY_USED, TEE_ERROR_BUSY);
    (GT511C3_STATUS_VERIFY_FAILED, TEE_ERROR_ACCESS_DENIED);
    (GT511C3_STATUS_IDENTIFY_FAILED, TEE_ERROR_ACCESS_DENIED);
    (GT511C3_STATUS_DB_IS_FULL, TEE_ERROR_OUT_OF_MEMORY);
    (GT511C3_STATUS_DB_IS_EMPTY, TEE_ERROR_NO_DATA);
    (GT511C3_STATUS_IS_NOT_SUPPORTED, TEE_ERROR_NOT_SUPPORTED);
    (GT511C3_STATUS_CAPTURE_CANCELED, TEE_ERROR_CANCEL) ].

Fixpoint table_lookup (tbl : list (Z * TEE_Result)) (status : Z) : option TEE_Result :=
  match tbl with
  | [] => None
  | (s, k) :: tbl' => if status =? s then Some k else table_lookup tbl' status
  end.

Definition spec_translate (status : Z) : TEE_Result :=
  match table_lookup status_table status with
  | Some k => k
  | None => TEE_ERROR_GENERIC
  end.

(** ** Checksum *)

(** The body of the [for] loop of [gt511C3_checksum], run [n] times from
    index [i]: [cs += msg[i]] adds in [int] and stores back into the
    [int16_t] accumulator.  Reading past the end of [msg] is [None]. *)
Fixpoint checksum_loop (n : nat) (msg : list byte) (i cs : Z) : option Z :=
  match n with
  | O => Some cs
  | S n' =>
      match msg !! Z.to_nat i with
      | None => None
      | Some b => checksum_loop n' msg (i + 1) (int16_t (cs + u8 b))
      end
  end.

(** [gt511C3_checksum(msg, length)]: [length] is a [uint16_t], so the loop
    [for (i = 0; i < length; ++i)] runs exactly [length] times. *)
Definition gt511C3_checksum (msg : list byte) (length : Z) : option Z :=
  checksum_loop (Z.to_nat (uint16_t length)) msg 0 0.

(** The checksum of a whole byte sequence: the call
    [gt511C3_checksum(bytes, len)] with [len] the number of bytes. *)
Definition checksum (bytes : list byte) : option Z :=
  gt511C3_checksum bytes (Z.of_nat (length bytes)).

(** Addition of two [int16_t] values stored back into an [int16_t]. *)
Definition wrapping_add (a b : Z) : Z := int16_t (a + b).

(** The plain (unbounded) sum of the byte values. *)
Definition byte_sum (bytes : list byte) : Z :=
  fold_right (fun b s => u8 b + s) 0 bytes.

(** ** Frame layouts *)

(** Little-endian stores of a 16-bit and a 32-bit field. *)
Definition store16 (z : Z) : list byte :=
  [byte_of_Z z; byte_of_Z (Z.shiftr z 8)].

Definition store32 (z : Z) : list byte :=
  [byte_of_Z z; byte_of_Z (Z.shiftr z 8);
   byte_of_Z (Z.shiftr z 16); byte_of_Z (Z.shiftr z 24)].

(** Loads from an object at a constant offset inside it. *)
Definition load8 (buf : list byte) (off : nat) : Z :=
  u8 (default x00 (buf !! off)).

Definition load16 (buf : list byte) (off : nat) : Z :=
  load8 buf off + Z.shiftl (load8 buf (off + 1)) 8.

Definition load32 (buf : list byte) (off : nat) : Z :=
  load8 buf off + Z.shiftl (load8 buf (off + 1)) 8
  + Z.shiftl (load8 buf (off + 2)) 16 + Z.shiftl (load8 buf (off + 3)) 24.

(** [struct _gt511C3_command], packed: 12 bytes. *)
Record gt511C3_command : Type := {
  cmd_start_code1 : Z;   (* #0,  uint8_t  *)
  cmd_start_code2 : Z;   (* #1,  uint8_t  *)
  cmd_device_id : Z;     (* #2,  int16_t  *)
  cmd_parameter : Z;     (* #4,  uint32_t *)
  cmd_command : Z;       (* #8,  int16_t  *)
  cmd_checksum : Z       (* #10, int16_t  *)
}.

Definition sizeof_gt511C3_command : Z := 12.
Definition sizeof_gt511C3_response : Z := 12.

(** [FIELD_OFFSET(gt511C3_command, checksum)] *)
Definition FIELD_OFFSET_command_checksum : Z := 10.

(** The object representation of a command: what [(uint8_t * )cmd] reads. *)
Definition command_bytes (cmd : gt511C3_command) : list byte :=
  [byte_of_Z (cmd_start_code1 cmd); byte_of_Z (cmd_start_code2 cmd)]
  ++ store16 (cmd_device_id cmd)
  ++ store32 (cmd_parameter cmd)
  ++ store16 (cmd_command cmd)
  ++ store16 (cmd_checksum cmd).

(** The ten bytes of a command in front of its checksum field. *)
Definition command_head (cmd : gt511C3_command) : list byte :=
  [byte_of_Z (cmd_start_code1 cmd); byte_of_Z (cmd_start_code2 cmd)]
  ++ store16 (cmd_device_id cmd)
  ++ store32 (cmd_parameter cmd)
  ++ store16 (cmd_command cmd).

(** [GT511C3_INIT_COMMAND(cmd_frame, cmd_code)] *)
Definition GT511C3_INIT_COMMAND (cmd_code : Z) : gt511C3_command :=
  {| cmd_start_code1 := GT511C3_CMD_START_CODE1;
     cmd_start_code2 := GT511C3_CMD_START_CODE2;
     cmd_device_id := GT511C3_CMD_DEVICE_ID;
     cmd_parameter := 0;
     cmd_command := int16_t cmd_code;
     cmd_checksum := 0 |}.

(** [cmd.parameter = parameter] *)
Definition set_cmd_parameter (parameter : Z) (cmd : gt511C3_command) : gt511C3_command :=
  {| cmd_start_code1 := cmd_start_code1 cmd;
     cmd_start_code2 := cmd_start_code2 cmd;
     cmd_device_id := cmd_device_id cmd;
     cmd_parameter := uint32_t parameter;
     cmd_command := cmd_command cmd;
     cmd_checksum := cmd_checksum cmd |}.

(** [cmd->checksum = cs] *)
Definition set_cmd_checksum (cs : Z) (cmd : gt511C3_command) : gt511C3_command :=
  {| cmd_start_code1 := cmd_start_code1 cmd;
     cmd_start_code2 := cmd_start_code2 cmd;
     cmd_device_id := cmd_device_id cmd;
     cmd_parameter := cmd_parameter cmd;
     cmd_command := cmd_command cmd;
     cmd_checksum := int16_t cs |}.

(** The assignment
    [cmd->checksum = gt511C3_checksum((uint8_t* )cmd, FIELD_OFFSET(gt511C3_command, checksum))]
    at the head of [gt511C3_send_cmd]. *)
Definition checksummed (cmd : gt511C3_command) : option gt511C3_command :=
  match gt511C3_checksum (command_bytes cmd) FIELD_OFFSET_command_checksum with
  | Some cs => Some (set_cmd_checksum cs cmd)
  | None => None
  end.

(** Fields of [struct _gt511C3_response] read out of its 12 bytes. *)
Definition rsp_start_code1 (rsp : list byte) : Z := load8 rsp 0.
Definition rsp_start_code2 (rsp : list byte) : Z := load8 rsp 1.
Definition rsp_device_id (rsp : list byte) : Z := int16_t (load16 rsp 2).
Definition rsp_parameter (rsp : list byte) : Z := load32 rsp 4.
Definition rsp_response (rsp : list byte) : Z := int16_t (load16 rsp 8).
Definition rsp_checksum (rsp : list byte) : Z := int16_t (load16 rsp 10).

(** [struct _gt511C3_data], packed: two start codes, the device id and the
    one-byte placeholder of the payload. *)
Definition sizeof_gt511C3_data : Z := 5.

(** [sizeof(gt511C3_data_frame)]: the union with [raw[GT511C3_MAX_PAYLOAD]]. *)
Definition sizeof_gt511C3_data_frame : Z := GT511C3_MAX_PAYLOAD.

(** [GT511C3_DATA_FRAME_SIZE(payload_size)], computed in [size_t]. *)
Definition GT511C3_DATA_FRAME_SIZE (payload_size : Z) : Z :=
  size_t (sizeof_gt511C3_data - 1 + payload_size + 2).

Definition data_start_code1 (frame : list byte) : Z := load8 frame 0.
Definition data_start_code2 (frame : list byte) : Z := load8 frame 1.

(** [data_frame.frame.data]: the bytes of the frame object from offset 4. *)
Definition data_payload (frame : list byte) : list byte := drop 4 frame.

(** [memcpy(dst, src, n)]: the first [n] bytes of [dst] replaced by those of
    [src]; [None] when either object is shorter than [n]. *)
Definition memcpy (dst src : list byte) (n : Z) : option (list byte) :=
  if (0 <=? n) && (n <=? Z.of_nat (length src)) && (n <=? Z.of_nat (length dst))
  then Some (take (Z.to_nat n) src ++ drop (Z.to_nat n) dst)
  else None.

(** ** Driver state and the transport *)

Record imx_uart_config : Type := {
  clock_hz : Z;
  cfg_baud_rate : Z
}.

(** The fields of [GT511C3_DeviceConfig] the driver reads. *)
Record GT511C3_DeviceConfig : Type := {
  uart_base_pa : Z;
  uart_clock_hz : Z;
  baud_rate : Z
}.

(** The globals of the driver together with the serial line:
    - [serial]: the [serial_chip] pointer, [None] for [NULL], otherwise the
      chip of [uart_driver] with the configuration it was initialised with;
    - [rx]: the bytes the device will deliver, next one first;
    - [tx]: the bytes sent to the device so far, in order;
    - [data_frame]: the function-static buffer of [gt511C3_recv_data]. *)
Record driver_state : Type := {
  serial : option imx_uart_config;
  rx : list byte;
  tx : list byte;
  data_frame : list byte
}.

Definition set_serial (s : option imx_uart_config) (st : driver_state) : driver_state :=
  {| serial := s; rx := rx st; tx := tx st; data_frame := data_frame st |}.
Definition set_rx (r : list byte) (st : driver_state) : driver_state :=
  {| serial := serial st; rx := r; tx := tx st; data_frame := data_frame st |}.
Definition set_tx (t : list byte) (st : driver_state) : driver_state :=
  {| serial := serial st; rx := rx st; tx := t; data_frame := data_frame st |}.
Definition set_data_frame (f : list byte) (st : driver_state) : driver_state :=
  {| serial := serial st; rx := rx st; tx := tx st; data_frame := f |}.

(** What running a piece of the driver leads to: a value and a new state;
    a read that waits for ever on a silent line; or undefined behaviour (a
    null [serial] dereferenced, an access outside an object). *)
Inductive outcome (A : Type) : Type :=
  | Ret (a : A) (st : driver_state)
  | Blocked
  | Fault.
Arguments Ret {A} a st.
Arguments Blocked {A}.
Arguments Fault {A}.

Definition M (A : Type) : Type := driver_state -> outcome A.

Definition ret {A : Type} (a : A) : M A := fun st => Ret a st.

Definition bind {A B : Type} (c : M A) (k : A -> M B) : M B :=
  fun st =>
    match c st with
    | Ret a st' => k a st'
    | Blocked => Blocked
    | Fault => Fault
    end.

#[global] Instance driver_ret : MRet M := @ret.
#[global] Instance driver_bind : MBind M := fun A B k c => bind c k.

Definition returns {A : Type} (o : outcome A) : bool :=
  match o with
  | Ret _ _ => true
  | _ => false
  end.

(** What an outcome shows from outside: the value returned, the bytes
    still waiting on the line and the bytes sent. *)
Definition observe {A : Type} (o : outcome A) : option (A * list byte * list byte) :=
  match o with
  | Ret a st => Some (a, rx st, tx st)
  | _ => None
  end.

(** Modelled from the spec: the transport adapter ([drivers/imx_uart])
    is not part of the sources; [put_byte] sends one byte and [get_byte]
    blocks until the line delivers one. Both go through [serial]. *)
Definition serial_putc (c : byte) : M unit :=
  fun st =>
    match serial st with
    | None => Fault
    | Some _ => Ret tt (set_tx (tx st ++ [c]) st)
    end.

Definition serial_getchar : M byte :=
  fun st =>
    match serial st with
    | None => Fault
    | Some _ =>
        match rx st with
        | [] => Blocked
        | c :: rest => Ret c (set_rx rest st)
        end
    end.

(** ** Receive path *)

Inductive loop_outcome : Type :=
  | LDone (i : Z) (msg : list byte) (rest : list byte)
  | LBlocked
  | LFault.

(** The receive loop of [gt511C3_recv],
    [for (i = 0; i < *length; ++i) msg[i] = (uint8_t)serial->ops->getchar(serial);]
    from the current value of the [uint16_t] counter [i]: [length] is the
    32-bit [*length], [++i] wraps at 16 bits, and every iteration takes one
    byte off the line [line]. *)
Fixpoint gt511C3_recv_loop (chip : option imx_uart_config) (line : list byte)
    (length i : Z) (msg : list byte) : loop_outcome :=
  if i <? length then
    match chip with
    | None => LFault
    | Some _ =>
        match line with
        | [] => LBlocked
        | c :: rest =>
            if (Z.to_nat i <? List.length msg)%nat
            then gt511C3_recv_loop chip rest length (uint16_t (i + 1))
                   (<[Z.to_nat i := c]> msg)
            else LFault
        end
    end
  else LDone i msg line.

(** [gt511C3_recv(msg, length)]; the value carries the status, the object
    [msg] as it was left and the updated [*length]. *)
Definition gt511C3_recv (msg : list byte) (length : Z) : M (TEE_Result * list byte * Z) :=
  fun st =>
    match gt511C3_recv_loop (serial st) (rx st) length 0 msg with
    | LBlocked => Blocked
    | LFault => Fault
    | LDone i msg rest =>
        let st := set_rx rest st in
        let length := i in
        let cs_length := uint16_t (i - 2) in
        match msg !! Z.to_nat (cs_length + 1), msg !! Z.to_nat cs_length with
        | Some hi, Some lo =>
            let msg_cs := int16_t (Z.shiftl (u8 hi) 8 + u8 lo) in
            match gt511C3_checksum msg cs_length with
            | None => Fault
            | Some calculated_cs =>
                if negb (msg_cs =? calculated_cs)
                then Ret (TEE_ERROR_COMMUNICATION, msg, length) st
                else Ret (TEE_SUCCESS, msg, length) st
            end
        | _, _ => Fault
        end
    end.

(** [gt511C3_recv_response(rsp)]; [rsp] is the 12-byte response object, the
    value carries the status and the object as received. *)
Definition gt511C3_recv_response (rsp : list byte) : M (TEE_Result * list byte) :=
  let rsp_length := sizeof_gt511C3_response in
  '(status, rsp, _) ← gt511C3_recv rsp rsp_length;
  if failed status then ret (status, rsp)
  else if negb (rsp_start_code1 rsp =? GT511C3_RSP_START_CODE1)
          || negb (rsp_start_code2 rsp =? GT511C3_RSP_START_CODE2)
  then ret (TEE_ERROR_COMMUNICATION, rsp)
  else if rsp_response rsp =? GT511C3_RSP_NACK
  then ret (gt511C3_to_tee (rsp_parameter rsp), rsp)
  else ret (TEE_SUCCESS, rsp).

(** The receive-layer check in the words of the specification: the checksum
    of everything but the trailing two bytes, compared with the
    little-endian 16-bit value stored in the trailing two bytes. *)
Definition trailer_matches (frame : list byte) : bool :=
  let n := (length frame - 2)%nat in
  match checksum (take n frame) with
  | Some cs => int16_t (load16 frame n) =? cs
  | None => false
  end.

(** The status [gt511C3_recv_response] derives from twelve received bytes:
    the trailer check of [gt511C3_recv], then the start codes, then the
    response kind. *)
Definition response_status (frame : list byte) : TEE_Result :=
  if negb (trailer_matches frame) then TEE_ERROR_COMMUNICATION
  else if negb (rsp_start_code1 frame =? GT511C3_RSP_START_CODE1)
          || negb (rsp_start_code2 frame =? GT511C3_RSP_START_CODE2)
  then TEE_ERROR_COMMUNICATION
  else if rsp_response frame =? GT511C3_RSP_NACK
  then gt511C3_to_tee (rsp_parameter frame)
  else TEE_SUCCESS.

Definition get_data_frame : M (list byte) := fun st => Ret (data_frame st) st.
Definition put_data_frame (f : list byte) : M unit := fun st => Ret tt (set_data_frame f st).
Definition fault {A : Type} : M A := fun _ => Fault.

(** [gt511C3_recv_data(data, length)]; the value carries the status and the
    destination object [data] as it was left. *)
Definition gt511C3_recv_data (data : list byte) (length : Z) : M (TEE_Result * list byte) :=
  let recv_bytes := GT511C3_DATA_FRAME_SIZE length in
  if recv_bytes >? sizeof_gt511C3_data_frame then ret (TEE_ERROR_SHORT_BUFFER, data)
  else
    frame ← get_data_frame;
    '(status, frame, _) ← gt511C3_recv frame recv_bytes;
    _ ← put_data_frame frame;
    if failed status then ret (status, data)
    else if negb (data_start_code1 frame =? GT511C3_DATA_START_CODE1)
            || negb (data_start_code2 frame =? GT511C3_DATA_START_CODE2)
    then ret (TEE_ERROR_COMMUNICATION, data)
    else
      match memcpy data (data_payload frame) length with
      | None => fault
      | Some data => ret (TEE_SUCCESS, data)
      end.

(** ** Send path *)

(** [for (i = 0; i < sizeof(gt511C3_command); ++i) serial->ops->putc(serial, payload[i]);] *)
Fixpoint putc_all (payload : list byte) : M unit :=
  match payload with
  | [] => ret tt
  | c :: rest => _ ← serial_putc c; putc_all rest
  end.

(** The response object used when the caller passes [rsp == NULL]:
    [local_rsp], whose twelve bytes are all written before any is read. *)
Definition local_rsp : list byte := replicate 12 x00.

(** [gt511C3_send_cmd(cmd, rsp)]; [rsp] is [None] for a null pointer.  Every
    caller in the driver passes [NULL], so only the status is returned. *)
Definition gt511C3_send_cmd (cmd : gt511C3_command) (rsp : option (list byte)) : M TEE_Result :=
  let rsp := default local_rsp rsp in
  match checksummed cmd with
  | None => fault
  | Some cmd =>
      _ ← putc_all (command_bytes cmd);
      '(status, _) ← gt511C3_recv_response rsp;
      if failed status then ret status
      else ret TEE_SUCCESS
  end.

(** ** Device session and command handlers *)

(** What the driver takes from headers and drivers outside this file:
    the UART bring-up [imx_uart_init_ex] (its verdict on a base address and
    a configuration), the size of [GT511C3_DeviceInfo], and the
    parameter-type encoding of the TEE API. *)
Class Platform : Type := {
  imx_uart_init_ex : Z -> imx_uart_config -> bool;
  sizeof_GT511C3_DeviceInfo : Z;
  TEE_PARAM_TYPES : Z -> Z -> Z -> Z -> Z;
  TEE_PARAM_TYPE_NONE : Z;
  TEE_PARAM_TYPE_VALUE_INPUT : Z;
  TEE_PARAM_TYPE_MEMREF_INPUT : Z;
  TEE_PARAM_TYPE_MEMREF_INOUT : Z
}.

(** The members of [TEE_Param] the handlers read: [value.a], [value.b],
    [memref.buffer] (the object it points to) and [memref.size]. *)
Record TEE_Param : Type := {
  value_a : Z;
  value_b : Z;
  memref_buffer : list byte;
  memref_size : Z
}.

Section Session.
Context `{Platform}.

(** [gt511C3_init(device_config, reset)] *)
Definition gt511C3_init (device_config : GT511C3_DeviceConfig) (reset : bool) : M TEE_Result :=
  let uart_config :=
    {| clock_hz := uart_clock_hz device_config;
       cfg_baud_rate := if reset then GT511C3_RESET_BAUDRATE else baud_rate device_config |} in
  if cfg_baud_rate uart_config >? GT511C3_MAX_BAUDRATE then ret TEE_ERROR_BAD_PARAMETERS
  else if reset && (uart_base_pa device_config =? 0) then ret TEE_ERROR_BAD_PARAMETERS
  else if negb (imx_uart_init_ex (uart_base_pa device_config) uart_config)
  then ret TEE_ERROR_BAD_PARAMETERS
  else fun st => Ret TEE_SUCCESS (set_serial (Some uart_config) st).

(** [exp_pt] of [gt511c3_cmd_exec] *)
Definition cmd_exec_exp_pt : Z :=
  TEE_PARAM_TYPES TEE_PARAM_TYPE_VALUE_INPUT TEE_PARAM_TYPE_MEMREF_INOUT
    TEE_PARAM_TYPE_NONE TEE_PARAM_TYPE_NONE.

(** The command frame [gt511c3_cmd_exec] builds from [params[0]]. *)
Definition cmd_exec_command (params : nat -> TEE_Param) : gt511C3_command :=
  let cmd := GT511C3_INIT_COMMAND (value_a (params 0%nat)) in
  set_cmd_parameter (value_b (params 0%nat)) cmd.

(** The command frame [gt511c3_open] builds. *)
Definition open_command (device_info : option (list byte)) : gt511C3_command :=
  let cmd := GT511C3_INIT_COMMAND GT511C3_CMD_OPEN in
  match device_info with
  | Some _ => set_cmd_parameter 1 cmd
  | None => cmd
  end.

(** [gt511c3_open(device_config, device_info)]; [device_info] is [None] for
    a null pointer, and the value carries the object as it was left. *)
Definition gt511c3_open (device_config : GT511C3_DeviceConfig)
    (device_info : option (list byte)) : M (TEE_Result * option (list byte)) :=
  status ← gt511C3_init device_config true;
  if failed status then ret (status, device_info)
  else
    let cmd := open_command device_info in
    status ← gt511C3_send_cmd cmd None;
    if failed status then ret (status, device_info)
    else
      match device_info with
      | Some info =>
          '(status, info) ← gt511C3_recv_data info sizeof_GT511C3_DeviceInfo;
          ret (status, Some info)
      | None => ret (status, None)
      end.

(** [gt511c3_close()] *)
Definition gt511c3_close : M TEE_Result :=
  let cmd := GT511C3_INIT_COMMAND GT511C3_CMD_CLOSE in
  gt511C3_send_cmd cmd None.

(** [gt511c3_cmd_exec(param_types, params)]; the value carries the status
    and the object behind [params[1].memref.buffer] as it was left. *)
Definition gt511c3_cmd_exec (param_types : Z) (params : nat -> TEE_Param)
    : M (TEE_Result * list byte) :=
  let exp_pt := cmd_exec_exp_pt in
  if negb (exp_pt =? param_types) then ret (TEE_ERROR_BAD_PARAMETERS, memref_buffer (params 1%nat))
  else
    let cmd := cmd_exec_command params in
    status ← gt511C3_send_cmd cmd None;
    if failed status then ret (status, memref_buffer (params 1%nat))
    else gt511C3_recv_data (memref_buffer (params 1%nat)) (memref_size (params 1%nat)).

End Session.

(** ** Vocabulary of the specification *)

(** The generic error kinds the specification names. *)
Inductive ErrorKind : Type :=
  | CommunicationError
  | ProtocolError
  | BadParameters
  | BadState
  | Busy
  | AccessDenied
  | OutOfMemory
  | NoData
  | NotSupported
  | Cancelled
  | BufferTooSmall
  | Generic.

(** The kind a result code stands for; [None] for success.  No result code
    of the driver stands for [ProtocolError]. *)
Definition kind_of (r : TEE_Result) : option ErrorKind :=
  match r with
  | TEE_SUCCESS => None
  | TEE_ERROR_GENERIC => Some Generic
  | TEE_ERROR_ACCESS_DENIED => Some AccessDenied
  | TEE_ERROR_CANCEL => Some Cancelled
  | TEE_ERROR_BAD_PARAMETERS => Some BadParameters
  | TEE_ERROR_BAD_STATE => Some BadState
  | TEE_ERROR_NOT_SUPPORTED => Some NotSupported
  | TEE_ERROR_NO_DATA => Some NoData
  | TEE_ERROR_OUT_OF_MEMORY => Some OutOfMemory
  | TEE_ERROR_BUSY => Some Busy
  | TEE_ERROR_COMMUNICATION => Some CommunicationError
  | TEE_ERROR_SHORT_BUFFER => Some BufferTooSmall
  end.

(** The frame size in the words of the specification: header, payload and
    the two-byte trailer, as a plain integer. *)
Definition frame_size (payload_len : Z) : Z :=
  (sizeof_gt511C3_data - 1) + payload_len + 2.

(** ** Concrete platform, states and frames used in the examples *)

(** A platform with the parameter-type encoding of the GlobalPlatform TEE
    Internal API, a UART bring-up that succeeds and a 24-byte device-info
    record. *)
Definition example_platform : Platform :=
  {| imx_uart_init_ex := fun _ _ => true;
     sizeof_GT511C3_DeviceInfo := 24;
     TEE_PARAM_TYPES := fun t0 t1 t2 t3 =>
       Z.lor (Z.lor t0 (Z.shiftl t1 4)) (Z.lor (Z.shiftl t2 8) (Z.shiftl t3 12));
     TEE_PARAM_TYPE_NONE := 0;
     TEE_PARAM_TYPE_VALUE_INPUT := 1;
     TEE_PARAM_TYPE_MEMREF_INPUT := 5;
     TEE_PARAM_TYPE_MEMREF_INOUT := 7 |}.

Definition reset_config : imx_uart_config :=
  {| clock_hz := 80000000; cfg_baud_rate := GT511C3_RESET_BAUDRATE |}.

(** The zero-initialised static data-frame buffer. *)
Definition zero_data_frame : list byte :=
  replicate (Z.to_nat sizeof_gt511C3_data_frame) x00.

(** The driver before any open: [serial == NULL]. *)
Definition closed_state (line : list byte) : driver_state :=
  {| serial := None; rx := line; tx := []; data_frame := zero_data_frame |}.

(** The driver after a successful bring-up, with [line] waiting on the
    receive side. *)
Definition open_state (line : list byte) : driver_state :=
  {| serial := Some reset_config; rx := line; tx := []; data_frame := zero_data_frame |}.

Definition bytes_of (l : list Z) : list byte := map byte_of_Z l.


(** A non-acknowledge response carrying [GT511C3_STATUS_DB_IS_EMPTY]. *)
Definition nack_db_is_empty_frame : list byte :=
  bytes_of [0x55; 0xAA; 0x01; 0x00; 0x0A; 0x10; 0x00; 0x00; 0x31; 0x00; 0x4B; 0x01].

(** A response with a wrong first start code and a valid checksum. *)
Definition bad_marker_frame : list byte :=
  bytes_of [0x54; 0xAA; 0x01; 0x00; 0x00; 0x00; 0x00; 0x00; 0x30; 0x00; 0x2F; 0x01].

(** The parameters of an execute call: command code and parameter in
    [params[0]], a zeroed reply buffer of [size] bytes in [params[1]]. *)
Definition exec_params (code parameter size : Z) : nat -> TEE_Param :=
  fun _ => {| value_a := code; value_b := parameter;
              memref_buffer := replicate (Z.to_nat size) x00; memref_size := size |}.

(** ** Session entry point and further frames *)

(** [pta_gt511c3_close_session(sess_ctx)]: closes the device; the status is
    only logged, nothing is returned. *)
Definition pta_gt511c3_close_session : M unit :=
  status ← gt511c3_close;
  ret tt.

(** The status [gt511C3_recv_data] derives from a fully received data
    frame: the trailer check of [gt511C3_recv], then the start codes. *)
Definition data_frame_status (frame : list byte) : TEE_Result :=
  if negb (trailer_matches frame) then TEE_ERROR_COMMUNICATION
  else if negb (data_start_code1 frame =? GT511C3_DATA_START_CODE1)
          || negb (data_start_code2 frame =? GT511C3_DATA_START_CODE2)
  then TEE_ERROR_COMMUNICATION
  else TEE_SUCCESS.

(** An acknowledge response with parameter 0 and a valid checksum. *)
Definition ack_frame : list byte :=
  bytes_of [0x55; 0xAA; 0x01; 0x00; 0x00; 0x00; 0x00; 0x00; 0x30; 0x00; 0x30; 0x01].

(** A data frame carrying the four bytes 1, 2, 3, 4. *)
Definition four_byte_data_frame : list byte :=
  bytes_of [0x5A; 0xA5; 0x01; 0x00; 0x01; 0x02; 0x03; 0x04; 0x0A; 0x01].

(** An empty data frame: header and checksum only. *)
Definition empty_data_frame : list byte :=
  bytes_of [0x5A; 0xA5; 0x01; 0x00; 0x00; 0x01].

(** A data frame carrying a 24-byte device-info record of zero bytes. *)
Definition device_info_frame : list byte :=
  bytes_of [0x5A; 0xA5; 0x01; 0x00] ++ replicate 24 x00 ++ bytes_of [0x00; 0x01].

(** A device configuration asking for 115200 baud on a UART at 0x021E8000. *)
Definition example_config : GT511C3_DeviceConfig :=
  {| uart_base_pa := 0x021E8000; uart_clock_hz := 80000000; baud_rate := 115200 |}.

(** * Properties *)

(** ** Integer conversions and bytes *)

Lemma u8_range (b : byte) : 0 <= u8 b < 256.
Proof.
  unfold u8. pose proof (Byte.to_N_bounded b). lia.
Qed.

Lemma u8_byte_of_Z (z : Z) : u8 (byte_of_Z z) = uint8_t z.
Proof.
  unfold byte_of_Z, u8, uint8_t.
  assert (Hr : 0 <= z mod 256 < 256) by (apply Z.mod_pos_bound; lia).
  destruct (Byte.of_N (Z.to_N (z mod 256))) as [b|] eqn:E.
  - apply Byte.to_of_N in E. rewrite E. lia.
  - apply Byte.of_N_None_iff in E. lia.
Qed.

Lemma byte_of_Z_u8 (b : byte) : byte_of_Z (u8 b) = b.
Proof.
  unfold byte_of_Z, u8, uint8_t.
  pose proof (Byte.to_N_bounded b) as Hb.
  rewrite Z.mod_small by lia.
  rewrite N2Z.id, Byte.of_to_N. reflexivity.
Qed.

Lemma int16_t_range (z : Z) : -32768 <= int16_t z < 32768.
Proof.
  unfold int16_t. pose proof (Z.mod_pos_bound (z + 32768) 65536). lia.
Qed.

Lemma int16_t_small (z : Z) : -32768 <= z < 32768 -> int16_t z = z.
Proof.
  intros Hz. unfold int16_t. rewrite Z.mod_small by lia. lia.
Qed.

Lemma int16_t_idem (z : Z) : int16_t (int16_t z) = int16_t z.
Proof. apply int16_t_small, int16_t_range. Qed.

Lemma int16_t_add_l (a b : Z) : int16_t (int16_t a + b) = int16_t (a + b).
Proof.
  unfold int16_t.
  replace ((a + 32768) mod 65536 - 32768 + b + 32768)
    with ((a + 32768) mod 65536 + b) by lia.
  rewrite Zplus_mod_idemp_l. f_equal. f_equal. lia.
Qed.

Lemma int16_t_add_r (a b : Z) : int16_t (a + int16_t b) = int16_t (a + b).
Proof.
  rewrite (Z.add_comm a), int16_t_add_l. f_equal. lia.
Qed.

Lemma int16_t_uint16_t (z : Z) : int16_t (uint16_t z) = int16_t z.
Proof.
  unfold int16_t, uint16_t.
  rewrite Zplus_mod_idemp_l. reflexivity.
Qed.

Lemma load8_range (buf : list byte) (off : nat) : 0 <= load8 buf off < 256.
Proof. apply u8_range. Qed.

Lemma load16_range (buf : list byte) (off : nat) : 0 <= load16 buf off < 65536.
Proof.
  unfold load16. rewrite Z.shiftl_mul_pow2 by lia.
  pose proof (load8_range buf off). pose proof (load8_range buf (off + 1)).
  change (2 ^ 8) with 256. lia.
Qed.

(** ** Status translator *)

Lemma gt511C3_to_tee_success_iff (status : Z) :
  gt511C3_to_tee status = TEE_SUCCESS <-> status = GT511C3_SUCCESS.
Proof.
  unfold gt511C3_to_tee. split.
  - intros Hs.
    repeat match type of Hs with
           | context [?a =? ?b] =>
               destruct (Z.eqb_spec a b); [first [assumption | discriminate Hs]|]
           end.
    discriminate Hs.
  - intros ->. reflexivity.
Qed.

(** Away from status 0 the translator is the specification's table. *)
Lemma gt511C3_to_tee_table (status : Z) :
  status <> GT511C3_SUCCESS -> gt511C3_to_tee status = spec_translate status.
Proof.
  intros Hne. unfold gt511C3_to_tee, spec_translate, status_table, table_lookup.
  repeat match goal with
         | |- context [?a =? ?b] =>
             destruct (Z.eqb_spec a b) as [->|]; [try reflexivity; try (exfalso; congruence)|]
         end.
  reflexivity.
Qed.

(** ** Checksum *)

Lemma checksum_loop_sum (bs pre post : list byte) (cs : Z) :
  int16_t cs = cs ->
  checksum_loop (length bs) (pre ++ bs ++ post) (Z.of_nat (length pre)) cs
  = Some (int16_t (cs + byte_sum bs)).
Proof.
  revert pre cs. induction bs as [|b bs IH]; intros pre cs Hcs; simpl.
  - rewrite Z.add_0_r, Hcs. reflexivity.
  - rewrite Nat2Z.id, (list_lookup_middle pre (bs ++ post) b (length pre) eq_refl).
    specialize (IH (pre ++ [b]) (int16_t (cs + u8 b)) (int16_t_idem _)).
    rewrite <- app_assoc in IH. simpl in IH.
    rewrite length_app in IH. simpl in IH.
    replace (Z.of_nat (length pre) + 1) with (Z.of_nat (length pre + 1)) by lia.
    rewrite IH, int16_t_add_l. f_equal. f_equal. lia.
Qed.

(** The checksum of the first [length bs] bytes of an object is the wrapped
    sum of those bytes. *)
Lemma gt511C3_checksum_prefix (bs post : list byte) :
  Z.of_nat (length bs) < 65536 ->
  gt511C3_checksum (bs ++ post) (Z.of_nat (length bs)) = Some (int16_t (byte_sum bs)).
Proof.
  intros Hlen. unfold gt511C3_checksum, uint16_t.
  rewrite Z.mod_small by lia. rewrite Nat2Z.id.
  apply (checksum_loop_sum bs [] post 0). reflexivity.
Qed.

Lemma checksum_sum (bs : list byte) :
  Z.of_nat (length bs) < 65536 -> checksum bs = Some (int16_t (byte_sum bs)).
Proof.
  intros Hlen. unfold checksum.
  rewrite <- (app_nil_r bs) at 1. apply gt511C3_checksum_prefix, Hlen.
Qed.

Lemma byte_sum_app (a b : list byte) : byte_sum (a ++ b) = byte_sum a + byte_sum b.
Proof.
  induction a as [|x a IH]; simpl; [reflexivity|]. rewrite IH. lia.
Qed.

(** The accumulator really wraps: 129 bytes of 0xFF sum to 32895, which the
    16-bit accumulator holds as -32641. *)
Example checksum_wraps : checksum (replicate (Z.to_nat 129) xff) = Some (-32641).
Proof. vm_compute. reflexivity. Qed.

(** C3: for byte sequences [a] and [b] whose concatenation can be passed to
    [gt511C3_checksum] (its length fits the [uint16_t] parameter), the
    checksum of [a ++ b] is the wrapping 16-bit sum of the checksums of [a]
    and of [b]. *)
Theorem checksum_app (a b : list byte) :
  Z.of_nat (length (a ++ b)) < 65536 ->
  exists ca cb,
    checksum a = Some ca /\ checksum b = Some cb /\
    checksum (a ++ b) = Some (wrapping_add ca cb).
Proof.
  intros Hlen. rewrite length_app in Hlen.
  exists (int16_t (byte_sum a)), (int16_t (byte_sum b)).
  rewrite !checksum_sum by (rewrite ?length_app; lia).
  repeat split. unfold wrapping_add.
  rewrite int16_t_add_l, int16_t_add_r, byte_sum_app. reflexivity.
Qed.

Lemma checksum_app_witness :
  Z.of_nat (length ([x01; xff] ++ [x02])) < 65536 /\
  exists ca cb,
    checksum [x01; xff] = Some ca /\ checksum [x02] = Some cb /\
    checksum ([x01; xff] ++ [x02]) = Some (wrapping_add ca cb).
Proof.
  split; [vm_compute; reflexivity | apply checksum_app; vm_compute; reflexivity].
Defined.

(** ** Command frames *)

Lemma uint16_t_split (v : Z) :
  uint8_t v + Z.shiftl (uint8_t (Z.shiftr v 8)) 8 = uint16_t v.
Proof.
  unfold uint8_t, uint16_t.
  rewrite Z.shiftl_mul_pow2, Z.shiftr_div_pow2 by lia.
  change (2 ^ 8) with 256. change 65536 with (256 * 256).
  rewrite Z.rem_mul_r by lia. lia.
Qed.

Lemma load16_store16 (pre post : list byte) (v : Z) :
  load16 (pre ++ store16 v ++ post) (length pre) = uint16_t v.
Proof.
  unfold load16, load8, store16. simpl (_ ++ post).
  rewrite (list_lookup_middle pre _ _ (length pre) eq_refl).
  rewrite (cons_middle (byte_of_Z v) pre), app_assoc.
  rewrite (list_lookup_middle (pre ++ [byte_of_Z v]) _ _ (length pre + 1))
    by (rewrite length_app; reflexivity).
  simpl. rewrite !u8_byte_of_Z. apply uint16_t_split.
Qed.

Lemma command_bytes_split (cmd : gt511C3_command) :
  command_bytes cmd = command_head cmd ++ store16 (cmd_checksum cmd) ++ [].
Proof. reflexivity. Qed.

Lemma checksummed_eq (cmd : gt511C3_command) :
  checksummed cmd = Some (set_cmd_checksum (int16_t (byte_sum (command_head cmd))) cmd).
Proof.
  unfold checksummed. rewrite command_bytes_split.
  change FIELD_OFFSET_command_checksum with (Z.of_nat (length (command_head cmd))).
  rewrite gt511C3_checksum_prefix by (simpl; lia). reflexivity.
Qed.

(** C4: for every command code and parameter, the 12-byte frame that
    [gt511C3_send_cmd] puts on the wire (the command initialised by
    [GT511C3_INIT_COMMAND], its parameter set, then its checksum assigned)
    carries in its checksum field the additive checksum of its first ten
    bytes, and so passes the trailer check of the receive layer. *)
Theorem command_frame_checksum (cmd_code parameter : Z) :
  exists cmd,
    checksummed (set_cmd_parameter parameter (GT511C3_INIT_COMMAND cmd_code)) = Some cmd /\
    length (command_bytes cmd) = 12%nat /\
    checksum (take 10 (command_bytes cmd)) = Some (cmd_checksum cmd) /\
    int16_t (load16 (command_bytes cmd) 10) = cmd_checksum cmd /\
    trailer_matches (command_bytes cmd) = true.
Proof.
  set (cmd0 := set_cmd_parameter parameter (GT511C3_INIT_COMMAND cmd_code)).
  eexists. split; [apply checksummed_eq|].
  set (cs := int16_t (byte_sum (command_head cmd0))).
  assert (Hhead : take 10 (command_bytes (set_cmd_checksum cs cmd0)) = command_head cmd0)
    by reflexivity.
  assert (Hcs : checksum (take 10 (command_bytes (set_cmd_checksum cs cmd0)))
                = Some (cmd_checksum (set_cmd_checksum cs cmd0))).
  { rewrite Hhead, checksum_sum by (simpl; lia).
    simpl. unfold cs. rewrite int16_t_idem. reflexivity. }
  assert (Hld : int16_t (load16 (command_bytes (set_cmd_checksum cs cmd0)) 10)
                = cmd_checksum (set_cmd_checksum cs cmd0)).
  { rewrite command_bytes_split.
    change 10%nat with (length (command_head (set_cmd_checksum cs cmd0))).
    rewrite load16_store16, int16_t_uint16_t. simpl. apply int16_t_idem. }
  repeat split; try assumption.
  unfold trailer_matches.
  change (length (command_bytes (set_cmd_checksum cs cmd0)) - 2)%nat with 10%nat.
  rewrite Hcs, Hld. apply Z.eqb_refl.
Qed.

(** The frame of the "get enrolled count" command, byte for byte. *)
Example get_enroll_count_frame :
  option_map command_bytes
    (checksummed (set_cmd_parameter 0 (GT511C3_INIT_COMMAND GT511C3_CMD_GET_ENROLL_COUNT)))
  = Some (bytes_of [0x55; 0xAA; 0x01; 0x00; 0x00; 0x00; 0x00; 0x00; 0x20; 0x00; 0x20; 0x01]).
Proof. vm_compute. reflexivity. Qed.

(** C2, as stated, fails at status 0: [GT511C3_SUCCESS] is a value of the
    status enumeration that the translator maps to [TEE_SUCCESS], which is
    neither the unclassified error nor any error kind at all. *)
Lemma gt511C3_to_tee_zero_not_an_error :
  gt511C3_to_tee 0 = TEE_SUCCESS /\
  gt511C3_to_tee 0 <> spec_translate 0 /\
  kind_of (gt511C3_to_tee 0) = None.
Proof. repeat split. discriminate. Qed.

(** C2, amended: the translator is a total function of the status; it maps
    [GT511C3_SUCCESS] (0) to [TEE_SUCCESS], each of the eighteen device
    statuses of the error table to its generic kind, and the sentinel
    [GT511C3_STATUS_INVALID] and every other value to [TEE_ERROR_GENERIC]. *)
Theorem gt511C3_to_tee_total :
  (forall status : Z,
      gt511C3_to_tee status
      = if status =? GT511C3_SUCCESS then TEE_SUCCESS else spec_translate status) /\
  Forall (fun e : Z * TEE_Result => gt511C3_to_tee (fst e) = snd e) status_table /\
  gt511C3_to_tee GT511C3_STATUS_INVALID = TEE_ERROR_GENERIC /\
  spec_translate GT511C3_STATUS_INVALID = TEE_ERROR_GENERIC.
Proof.
  split; [|split; [|split; reflexivity]].
  - intros status. destruct (Z.eqb_spec status GT511C3_SUCCESS) as [->|Hne].
    + reflexivity.
    + apply gt511C3_to_tee_table, Hne.
  - unfold status_table. repeat constructor.
Qed.

(** ** Receive path *)

Lemma gt511C3_recv_loop_done (chip : option imx_uart_config) (line : list byte)
    (L i : Z) (msg : list byte) :
  L <= i -> gt511C3_recv_loop chip line L i msg = LDone i msg line.
Proof.
  intros Hi. destruct line; simpl; rewrite (proj2 (Z.ltb_ge i L) Hi); reflexivity.
Qed.

(** With enough bytes on the line and room in the object, the loop stores
    the next bytes of the line one after the other and stops at [L]. *)
Lemma gt511C3_recv_loop_exact (frame pre old rest : list byte)
    (cfg : imx_uart_config) (L : Z) :
  Z.of_nat (length pre) + Z.of_nat (length frame) = L ->
  L <= 65535 ->
  (length frame <= length old)%nat ->
  gt511C3_recv_loop (Some cfg) (frame ++ rest) L (Z.of_nat (length pre)) (pre ++ old)
  = LDone L (pre ++ frame ++ drop (length frame) old) rest.
Proof.
  revert pre old. induction frame as [|c frame IH]; intros pre old HL Hmax Hold.
  - simpl in *. rewrite gt511C3_recv_loop_done by lia. f_equal. lia.
  - destruct old as [|o old]; [simpl in Hold; lia|].
    simpl in HL, Hold. simpl.
    rewrite (proj2 (Z.ltb_lt _ _)) by lia.
    rewrite Nat2Z.id.
    rewrite (proj2 (Nat.ltb_lt _ _)) by (rewrite length_app; simpl; lia).
    rewrite insert_app_r_alt by lia. rewrite Nat.sub_diag. simpl.
    unfold uint16_t. rewrite Z.mod_small by lia.
    replace (Z.of_nat (length pre) + 1) with (Z.of_nat (length (pre ++ [c])))
      by (rewrite length_app; simpl; lia).
    rewrite (cons_middle c pre old), app_assoc.
    rewrite IH by (rewrite ?length_app; simpl; lia).
    rewrite <- app_assoc. reflexivity.
Qed.

Lemma split_trailer (frame : list byte) :
  (2 <= length frame)%nat ->
  exists body lo hi, frame = body ++ [lo; hi].
Proof.
  intros Hlen.
  destruct (rev frame) as [|hi [|lo body]] eqn:E;
    apply (f_equal (@rev byte)) in E; rewrite rev_involutive in E; subst frame;
    simpl in Hlen; try lia.
  exists (rev body), lo, hi. simpl. rewrite <- app_assoc. reflexivity.
Qed.

Lemma trailer_matches_split (body : list byte) (lo hi : byte) :
  Z.of_nat (length body) < 65536 ->
  trailer_matches (body ++ [lo; hi])
  = (int16_t (u8 lo + Z.shiftl (u8 hi) 8) =? int16_t (byte_sum body)).
Proof.
  intros Hlen. unfold trailer_matches.
  replace (length (body ++ [lo; hi]) - 2)%nat with (length body)
    by (rewrite length_app; simpl; lia).
  rewrite take_app_length, checksum_sum by exact Hlen.
  unfold load16, load8.
  rewrite (list_lookup_middle body [hi] lo (length body) eq_refl).
  rewrite (cons_middle lo body [hi]), app_assoc.
  rewrite (list_lookup_middle (body ++ [lo]) [] hi (length body + 1))
    by (rewrite length_app; reflexivity).
  reflexivity.
Qed.

(** [gt511C3_recv] on a line that delivers the whole frame, for a length
    the 16-bit loop counter can reach: the frame is stored at the front of
    the object, the line advances past it, and the status says whether the
    trailing two bytes hold the checksum of the bytes in front of them. *)
Lemma gt511C3_recv_exact (st : driver_state) (cfg : imx_uart_config)
    (frame rest msg : list byte) :
  serial st = Some cfg ->
  rx st = frame ++ rest ->
  2 <= Z.of_nat (length frame) <= 65535 ->
  (length frame <= length msg)%nat ->
  gt511C3_recv msg (Z.of_nat (length frame)) st
  = Ret (if trailer_matches frame then TEE_SUCCESS else TEE_ERROR_COMMUNICATION,
         frame ++ drop (length frame) msg, Z.of_nat (length frame))
        (set_rx rest st).
Proof.
  intros Hserial Hrx Hlen Hmsg. unfold gt511C3_recv. rewrite Hserial, Hrx.
  pose proof (gt511C3_recv_loop_exact frame [] msg rest cfg (Z.of_nat (length frame)))
    as Hloop.
  change (Z.of_nat (length (@nil byte))) with 0 in Hloop.
  change ([] ++ msg) with msg in Hloop.
  rewrite Hloop by lia. clear Hloop. simpl app.
  destruct (split_trailer frame) as (body & lo & hi & ->); [lia|].
  rewrite length_app in *. simpl length in *.
  set (tail := drop (length body + 2) msg).
  assert (Hcs : uint16_t (Z.of_nat (length body + 2) - 2) = Z.of_nat (length body))
    by (unfold uint16_t; rewrite Z.mod_small by lia; lia).
  rewrite Hcs, Nat2Z.id.
  replace (Z.to_nat (Z.of_nat (length body) + 1)) with (length body + 1)%nat by lia.
  rewrite <- (app_assoc body [lo; hi] tail). simpl ([lo; hi] ++ tail).
  rewrite (list_lookup_middle body (hi :: tail) lo (length body) eq_refl).
  rewrite (cons_middle lo body (hi :: tail)), app_assoc.
  rewrite (list_lookup_middle (body ++ [lo]) tail hi (length body + 1))
    by (rewrite length_app; reflexivity).
  rewrite <- app_assoc. simpl ([lo] ++ hi :: tail).
  rewrite gt511C3_checksum_prefix by lia.
  rewrite trailer_matches_split by lia.
  rewrite (Z.add_comm (Z.shiftl (u8 hi) 8)).
  destruct (_ =? _); reflexivity.
Qed.

(** Once [*length] exceeds what the 16-bit counter can hold, the loop
    condition [i < *length] never fails: the loop ends only by waiting for
    ever on the line or by a fault, never by falling through. *)
Lemma gt511C3_recv_loop_never_done (line : list byte) (chip : option imx_uart_config)
    (L i : Z) (msg : list byte) :
  65536 <= L -> 0 <= i < 65536 ->
  match gt511C3_recv_loop chip line L i msg with
  | LDone _ _ _ => False
  | _ => True
  end.
Proof.
  intros HL. revert i msg. induction line as [|c line IH]; intros i msg Hi; simpl;
    rewrite (proj2 (Z.ltb_lt i L)) by lia; destruct chip; try exact I.
  destruct (_ <? _)%nat; [|exact I].
  apply IH. unfold uint16_t. apply Z.mod_pos_bound. lia.
Qed.

Lemma gt511C3_recv_wide_never_returns (msg : list byte) (L : Z) (st : driver_state) :
  65536 <= L -> returns (gt511C3_recv msg L st) = false.
Proof.
  intros HL. unfold gt511C3_recv.
  pose proof (gt511C3_recv_loop_never_done (rx st) (serial st) L 0 msg) as Hloop.
  destruct (gt511C3_recv_loop (serial st) (rx st) L 0 msg);
    [exfalso; apply Hloop; lia | reflexivity | reflexivity].
Qed.

(** C5, at the failing length: a request for 65536 bytes never returns,
    whatever the line delivers and whatever the object holds; and the
    driver makes that request itself, since a payload of 65530 bytes passes
    the size check of [gt511C3_recv_data]. *)
Theorem gt511C3_recv_65536_never_returns (msg data : list byte) (st : driver_state) :
  returns (gt511C3_recv msg 65536 st) = false /\
  GT511C3_DATA_FRAME_SIZE 65530 = 65536 /\
  (GT511C3_DATA_FRAME_SIZE 65530 >? sizeof_gt511C3_data_frame) = false /\
  returns (gt511C3_recv_data data 65530 st) = false.
Proof.
  split; [apply gt511C3_recv_wide_never_returns; lia|].
  split; [reflexivity|]. split; [reflexivity|].
  unfold gt511C3_recv_data. cbv zeta.
  change (GT511C3_DATA_FRAME_SIZE 65530) with 65536.
  change (65536 >? sizeof_gt511C3_data_frame) with false. cbv beta iota.
  unfold mbind, driver_bind, bind, get_data_frame.
  pose proof (gt511C3_recv_wide_never_returns (data_frame st) 65536 st) as Hrecv.
  destruct (gt511C3_recv (data_frame st) 65536 st);
    [discriminate Hrecv; lia | reflexivity | reflexivity].
Qed.

Lemma failed_false (status : TEE_Result) : failed status = false -> status = TEE_SUCCESS.
Proof. destruct status; simpl; intros Hs; first [reflexivity | discriminate Hs]. Qed.


(** [gt511C3_recv_response] on a line that delivers twelve bytes. *)
Lemma gt511C3_recv_response_exact (st : driver_state) (cfg : imx_uart_config)
    (frame rest rsp : list byte) :
  serial st = Some cfg ->
  rx st = frame ++ rest ->
  length frame = 12%nat ->
  length rsp = 12%nat ->
  gt511C3_recv_response rsp st = Ret (response_status frame, frame) (set_rx rest st).
Proof.
  intros Hserial Hrx Hframe Hrsp.
  unfold gt511C3_recv_response, mbind, driver_bind, bind.
  replace sizeof_gt511C3_response with (Z.of_nat (length frame))
    by (rewrite Hframe; reflexivity).
  rewrite (gt511C3_recv_exact st cfg frame rest rsp Hserial Hrx) by (rewrite ?Hframe; lia).
  rewrite drop_ge, app_nil_r by lia.
  unfold response_status.
  destruct (trailer_matches frame); simpl; [|reflexivity].
  destruct (_ || _); [reflexivity|].
  destruct (_ =? _); reflexivity.
Qed.




(** C7, as stated, fails: a frame with a wrong start code is rejected with
    [TEE_ERROR_COMMUNICATION], the code of a checksum mismatch; no result
    code of the driver stands for a separate protocol error. *)
Lemma recv_response_bad_marker_is_communication :
  rsp_start_code1 bad_marker_frame <> GT511C3_RSP_START_CODE1 /\
  observe (gt511C3_recv_response local_rsp (open_state bad_marker_frame))
  = Some (TEE_ERROR_COMMUNICATION, bad_marker_frame, [], []) /\
  kind_of TEE_ERROR_COMMUNICATION = Some CommunicationError /\
  kind_of TEE_ERROR_COMMUNICATION <> Some ProtocolError.
Proof.
  split; [vm_compute; discriminate|].
  split; [vm_compute; reflexivity|].
  split; [reflexivity | discriminate].
Qed.

(** C7, amended: every received 12-byte buffer whose first two bytes are
    not 0x55, 0xAA makes [gt511C3_recv_response] fail with
    [TEE_ERROR_COMMUNICATION], whatever the rest of the buffer holds
    (checksum valid or not). *)
Theorem recv_response_bad_markers (st : driver_state) (cfg : imx_uart_config)
    (frame rest rsp : list byte) :
  serial st = Some cfg ->
  rx st = frame ++ rest ->
  length frame = 12%nat ->
  length rsp = 12%nat ->
  rsp_start_code1 frame <> GT511C3_RSP_START_CODE1
  \/ rsp_start_code2 frame <> GT511C3_RSP_START_CODE2 ->
  gt511C3_recv_response rsp st = Ret (TEE_ERROR_COMMUNICATION, frame) (set_rx rest st).
Proof.
  intros Hserial Hrx Hframe Hrsp Hbad.
  rewrite (gt511C3_recv_response_exact st cfg frame rest rsp Hserial Hrx Hframe Hrsp).
  unfold response_status.
  destruct (negb (trailer_matches frame)); [reflexivity|].
  destruct (Z.eqb_spec (rsp_start_code1 frame) GT511C3_RSP_START_CODE1);
    destruct (Z.eqb_spec (rsp_start_code2 frame) GT511C3_RSP_START_CODE2);
    simpl; try reflexivity.
  destruct Hbad; contradiction.
Qed.

Lemma recv_response_bad_markers_witness :
  gt511C3_recv_response local_rsp (open_state (bad_marker_frame ++ [x07]))
  = Ret (TEE_ERROR_COMMUNICATION, bad_marker_frame)
        (set_rx [x07] (open_state (bad_marker_frame ++ [x07]))).
Proof.
  apply (recv_response_bad_markers (open_state (bad_marker_frame ++ [x07])) reset_config
           bad_marker_frame [x07] local_rsp); try reflexivity.
  left. vm_compute. discriminate.
Defined.

(** ** Send path *)

Lemma putc_all_exact (payload : list byte) (st : driver_state) (cfg : imx_uart_config) :
  serial st = Some cfg ->
  putc_all payload st = Ret tt (set_tx (tx st ++ payload) st).
Proof.
  revert st. induction payload as [|c payload IH]; intros st Hserial; simpl.
  - rewrite app_nil_r. destruct st; reflexivity.
  - unfold mbind, driver_bind, bind, serial_putc. rewrite Hserial.
    rewrite (IH (set_tx (tx st ++ [c]) st) Hserial).
    simpl. rewrite <- app_assoc. reflexivity.
Qed.

Lemma putc_all_closed (c : byte) (payload : list byte) (st : driver_state) :
  serial st = None -> putc_all (c :: payload) st = Fault.
Proof.
  intros Hserial. simpl. unfold mbind, driver_bind, bind, serial_putc.
  rewrite Hserial. reflexivity.
Qed.

(** [gt511C3_send_cmd] on an open line that answers with twelve bytes: the
    checksummed command goes out, the response is consumed, and the status
    is the one derived from the response. *)
Lemma gt511C3_send_cmd_exact (cmd : gt511C3_command) (st : driver_state)
    (cfg : imx_uart_config) (frame rest : list byte) :
  serial st = Some cfg ->
  rx st = frame ++ rest ->
  length frame = 12%nat ->
  exists cmd',
    checksummed cmd = Some cmd' /\
    gt511C3_send_cmd cmd None st
    = Ret (response_status frame)
          (set_rx rest (set_tx (tx st ++ command_bytes cmd') st)).
Proof.
  intros Hserial Hrx Hframe. eexists. split; [apply checksummed_eq|].
  unfold gt511C3_send_cmd. rewrite checksummed_eq.
  unfold mbind, driver_bind, bind.
  rewrite (putc_all_exact _ st cfg Hserial).
  rewrite (gt511C3_recv_response_exact _ cfg frame rest local_rsp)
    by (assumption || reflexivity).
  destruct (failed (response_status frame)) eqn:E; [reflexivity|].
  apply failed_false in E. rewrite E. reflexivity.
Qed.

(** With [serial == NULL] the first [putc] dereferences a null pointer. *)
Lemma gt511C3_send_cmd_closed (cmd : gt511C3_command) (rsp : option (list byte))
    (st : driver_state) :
  serial st = None -> gt511C3_send_cmd cmd rsp st = Fault.
Proof.
  intros Hserial. unfold gt511C3_send_cmd. rewrite checksummed_eq.
  unfold mbind, driver_bind, bind.
  rewrite command_bytes_split. simpl app.
  rewrite putc_all_closed by exact Hserial. reflexivity.
Qed.

(** ** Command handlers *)

(** The scenario end to end, on the example platform: the bytes left on the
    line after the failed exchange are exactly those behind the response. *)
Example exec_get_enroll_count_db_is_empty :
  observe (gt511c3_cmd_exec (H := example_platform) (cmd_exec_exp_pt (H := example_platform))
             (exec_params GT511C3_CMD_GET_ENROLL_COUNT 0 4)
             (open_state (nack_db_is_empty_frame ++ [x5a; xa5])))
  = Some (TEE_ERROR_NO_DATA, replicate 4 x00, [x5a; xa5],
          bytes_of [0x55; 0xAA; 0x01; 0x00; 0x00; 0x00; 0x00; 0x00; 0x20; 0x00; 0x20; 0x01]).
Proof. vm_compute. reflexivity. Qed.

(** Executing a command before any open does not return
    [TEE_ERROR_BAD_STATE]: the handler has no session check and goes on to
    use the null [serial]. *)
Lemma cmd_exec_closed_not_bad_state :
  ~ (exists buffer st',
        gt511c3_cmd_exec (H := example_platform) (cmd_exec_exp_pt (H := example_platform))
          (exec_params GT511C3_CMD_GET_ENROLL_COUNT 0 4) (closed_state [])
        = Ret (TEE_ERROR_BAD_STATE, buffer) st').
Proof.
  intros (buffer & st' & Hexec).
  apply (f_equal returns) in Hexec. vm_compute in Hexec. discriminate Hexec.
Qed.

(** C9, at the failing input: called while [serial] is still null with
    the expected parameter types, [gt511c3_cmd_exec] does not test [serial]
    and [gt511C3_send_cmd] dereferences the null pointer at its first
    [putc]; no [TEE_ERROR_BAD_STATE] is returned.  (The only check of the
    handler, the parameter types, answers a mismatch with
    [TEE_ERROR_BAD_PARAMETERS].) *)
Theorem cmd_exec_closed `{Platform} (param_types : Z) (params : nat -> TEE_Param)
    (st : driver_state) :
  serial st = None ->
  (param_types <> cmd_exec_exp_pt ->
   gt511c3_cmd_exec param_types params st
   = Ret (TEE_ERROR_BAD_PARAMETERS, memref_buffer (params 1%nat)) st) /\
  (param_types = cmd_exec_exp_pt ->
   gt511c3_cmd_exec param_types params st = Fault) /\
  (forall buffer st',
      gt511c3_cmd_exec param_types params st <> Ret (TEE_ERROR_BAD_STATE, buffer) st').
Proof.
  intros Hserial.
  assert (Hne : param_types <> cmd_exec_exp_pt ->
                gt511c3_cmd_exec param_types params st
                = Ret (TEE_ERROR_BAD_PARAMETERS, memref_buffer (params 1%nat)) st).
  { intros Hpt. unfold gt511c3_cmd_exec. cbv zeta.
    destruct (Z.eqb_spec cmd_exec_exp_pt param_types); [congruence|reflexivity]. }
  assert (Heq : param_types = cmd_exec_exp_pt ->
                gt511c3_cmd_exec param_types params st = Fault).
  { intros ->. unfold gt511c3_cmd_exec. cbv zeta. rewrite Z.eqb_refl.
    change (negb true) with false. cbv beta iota.
    unfold mbind, driver_bind, bind.
    rewrite gt511C3_send_cmd_closed by exact Hserial. reflexivity. }
  split; [exact Hne|]. split; [exact Heq|].
  intros buffer st'. destruct (Z.eq_dec param_types cmd_exec_exp_pt) as [Hpt|Hpt].
  - rewrite (Heq Hpt). discriminate.
  - rewrite (Hne Hpt). discriminate.
Qed.

Lemma cmd_exec_closed_witness :
  gt511c3_cmd_exec (H := example_platform) (cmd_exec_exp_pt (H := example_platform))
    (exec_params GT511C3_CMD_GET_ENROLL_COUNT 0 4) (closed_state []) = Fault.
Proof.
  apply (@cmd_exec_closed example_platform (cmd_exec_exp_pt (H := example_platform))
           (exec_params GT511C3_CMD_GET_ENROLL_COUNT 0 4) (closed_state []));
    reflexivity.
Defined.

(** ** Data frames *)

(** Where the sum does not wrap, the macro is the frame size. *)
Lemma GT511C3_DATA_FRAME_SIZE_exact (payload_len : Z) :
  0 <= payload_len <= 4294967289 ->
  GT511C3_DATA_FRAME_SIZE payload_len = frame_size payload_len.
Proof.
  intros Hlen. unfold GT511C3_DATA_FRAME_SIZE, frame_size, size_t, sizeof_gt511C3_data.
  apply Z.mod_small. lia.
Qed.

(** For every payload length whose frame does not wrap the 32-bit size, an
    oversized frame is refused before the line or any buffer is touched,
    and a frame within the bound passes the size check. *)
Lemma gt511C3_recv_data_size_check (data : list byte) (payload_len : Z) (st : driver_state) :
  0 <= payload_len <= 4294967289 ->
  (65536 < frame_size payload_len ->
   gt511C3_recv_data data payload_len st = Ret (TEE_ERROR_SHORT_BUFFER, data) st) /\
  (frame_size payload_len <= 65536 ->
   (GT511C3_DATA_FRAME_SIZE payload_len >? sizeof_gt511C3_data_frame) = false).
Proof.
  intros Hlen. rewrite (GT511C3_DATA_FRAME_SIZE_exact _ Hlen). split; intros Hsize.
  - unfold gt511C3_recv_data. cbv zeta.
    rewrite (GT511C3_DATA_FRAME_SIZE_exact _ Hlen).
    destruct (Z.gtb_spec (frame_size payload_len) sizeof_gt511C3_data_frame) as [_|Hle];
      [reflexivity|].
    change sizeof_gt511C3_data_frame with 65536 in Hle. lia.
  - destruct (Z.gtb_spec (frame_size payload_len) sizeof_gt511C3_data_frame) as [Hgt|_];
      [|reflexivity].
    change sizeof_gt511C3_data_frame with 65536 in Hgt. lia.
Qed.

Lemma int16_t_zero (x : Z) : 0 <= x < 65536 -> int16_t x = 0 -> x = 0.
Proof.
  unfold int16_t. intros Hx H0.
  destruct (Z_lt_dec x 32768) as [Hlt|Hge].
  - rewrite Z.mod_small in H0 by lia. lia.
  - replace (x + 32768) with (x - 32768 + 1 * 65536) in H0 by lia.
    rewrite Z_mod_plus_full, Z.mod_small in H0 by lia. lia.
Qed.

(** C6, at a failing length: for the payload length 0xFFFFFFFC the frame
    size (4294967298) exceeds the maximum, yet [GT511C3_DATA_FRAME_SIZE]
    wraps to 2 in 32-bit [size_t], the size check passes, two bytes are
    read from the line and the call ends in [TEE_ERROR_COMMUNICATION], not
    in [TEE_ERROR_SHORT_BUFFER]. *)
Theorem recv_data_size_wraps (data : list byte) (st : driver_state)
    (cfg : imx_uart_config) (c0 c1 : byte) (rest : list byte) :
  serial st = Some cfg ->
  rx st = c0 :: c1 :: rest ->
  Z.of_nat (length (data_frame st)) = 65536 ->
  65536 < frame_size 4294967292 /\
  GT511C3_DATA_FRAME_SIZE 4294967292 = 2 /\
  exists frame,
    gt511C3_recv_data data 4294967292 st
    = Ret (TEE_ERROR_COMMUNICATION, data) (set_data_frame frame (set_rx rest st)).
Proof.
  intros Hserial Hrx Hdf.
  split; [reflexivity|]. split; [reflexivity|].
  exists ([c0; c1] ++ drop (length [c0; c1]) (data_frame st)).
  unfold gt511C3_recv_data. cbv zeta.
  change (GT511C3_DATA_FRAME_SIZE 4294967292) with (Z.of_nat (length [c0; c1])).
  change (Z.of_nat (length [c0; c1]) >? sizeof_gt511C3_data_frame) with false.
  cbv beta iota. unfold mbind, driver_bind, bind, get_data_frame, put_data_frame.
  rewrite (gt511C3_recv_exact st cfg [c0; c1] rest (data_frame st) Hserial Hrx)
    by (simpl length; lia).
  destruct (trailer_matches [c0; c1]) eqn:Htrailer; [|reflexivity].
  change (failed TEE_SUCCESS) with false. cbv beta iota.
  change [c0; c1] with ([] ++ [c0; c1]) in Htrailer.
  rewrite (trailer_matches_split [] c0 c1) in Htrailer by (simpl; lia).
  apply Z.eqb_eq in Htrailer. change (int16_t (byte_sum [])) with 0 in Htrailer.
  pose proof (u8_range c0) as Hc0. pose proof (u8_range c1) as Hc1.
  apply int16_t_zero in Htrailer;
    [|rewrite Z.shiftl_mul_pow2 by lia; change (2 ^ 8) with 256; lia].
  rewrite Z.shiftl_mul_pow2 in Htrailer by lia. change (2 ^ 8) with 256 in Htrailer.
  assert (Hstart : data_start_code1 ([c0; c1] ++ drop (length [c0; c1]) (data_frame st)) = 0)
    by (unfold data_start_code1, load8; simpl; lia).
  rewrite Hstart. reflexivity.
Qed.

Lemma recv_data_size_wraps_witness :
  65536 < frame_size 4294967292 /\
  GT511C3_DATA_FRAME_SIZE 4294967292 = 2 /\
  exists frame,
    gt511C3_recv_data [] 4294967292 (open_state [x5a; xa5; x07])
    = Ret (TEE_ERROR_COMMUNICATION, [])
          (set_data_frame frame (set_rx [x07] (open_state [x5a; xa5; x07]))).
Proof.
  apply (recv_data_size_wraps [] (open_state [x5a; xa5; x07]) reset_config x5a xa5 [x07]);
    [reflexivity | reflexivity | vm_compute; reflexivity].
Defined.

Lemma gt511C3_recv_loop_step (cfg : imx_uart_config) (c : byte) (rest : list byte)
    (L i : Z) (msg : list byte) :
  i < L -> (Z.to_nat i < length msg)%nat ->
  gt511C3_recv_loop (Some cfg) (c :: rest) L i msg
  = gt511C3_recv_loop (Some cfg) rest L (uint16_t (i + 1)) (<[Z.to_nat i := c]> msg).
Proof.
  intros Hi Hmsg. simpl.
  rewrite (proj2 (Z.ltb_lt i L) Hi), (proj2 (Nat.ltb_lt _ _) Hmsg). reflexivity.
Qed.

(** C10, at a failing length: for the payload length 0xFFFFFFFB the frame
    size wraps to 1, the size check passes, [gt511C3_recv] is called with
    length 1, [i - sizeof(uint16_t)] underflows to 65535 and the read of
    [msg[cs_length + 1]] is at index 65536, one past the end of the
    65536-byte buffer. *)
Theorem recv_data_length_underflow (data : list byte) (st : driver_state)
    (cfg : imx_uart_config) (c : byte) (rest : list byte) :
  serial st = Some cfg ->
  rx st = c :: rest ->
  Z.of_nat (length (data_frame st)) = 65536 ->
  GT511C3_DATA_FRAME_SIZE 4294967291 = 1 /\
  uint16_t (1 - 2) = 65535 /\
  gt511C3_recv (data_frame st) 1 st = Fault /\
  gt511C3_recv_data data 4294967291 st = Fault.
Proof.
  intros Hserial Hrx Hdf.
  split; [reflexivity|]. split; [reflexivity|].
  assert (Hrecv : gt511C3_recv (data_frame st) 1 st = Fault).
  { unfold gt511C3_recv. rewrite Hserial, Hrx.
    rewrite gt511C3_recv_loop_step by lia.
    change (uint16_t (0 + 1)) with 1.
    rewrite gt511C3_recv_loop_done by lia.
    change (uint16_t (1 - 2)) with 65535.
    rewrite (lookup_ge_None_2 _ (Z.to_nat (65535 + 1))) by (rewrite length_insert; lia).
    reflexivity. }
  split; [exact Hrecv|].
  unfold gt511C3_recv_data. cbv zeta.
  change (GT511C3_DATA_FRAME_SIZE 4294967291) with 1.
  change (1 >? sizeof_gt511C3_data_frame) with false. cbv beta iota.
  unfold mbind, driver_bind, bind, get_data_frame.
  rewrite Hrecv. reflexivity.
Qed.

Lemma recv_data_length_underflow_witness :
  GT511C3_DATA_FRAME_SIZE 4294967291 = 1 /\
  uint16_t (1 - 2) = 65535 /\
  gt511C3_recv (data_frame (open_state [x5a])) 1 (open_state [x5a]) = Fault /\
  gt511C3_recv_data [] 4294967291 (open_state [x5a]) = Fault.
Proof.
  apply (recv_data_length_underflow [] (open_state [x5a]) reset_config x5a []);
    [reflexivity | reflexivity | vm_compute; reflexivity].
Defined.

(** ** Memory safety of the receive routine within the 16-bit range *)

Lemma gt511C3_recv_loop_safe (line : list byte) (cfg : imx_uart_config)
    (L i : Z) (msg : list byte) :
  0 <= i <= L -> L <= 65535 -> L <= Z.of_nat (length msg) ->
  match gt511C3_recv_loop (Some cfg) line L i msg with
  | LFault => False
  | LBlocked => True
  | LDone i' msg' _ => i' = L /\ length msg' = length msg
  end.
Proof.
  intros Hi HL Hmsg. revert i msg Hi Hmsg.
  induction line as [|c line IH]; intros i msg Hi Hmsg; simpl;
    destruct (Z.ltb_spec i L) as [Hlt|Hge]; try (split; [lia|reflexivity]); try exact I.
  rewrite (proj2 (Nat.ltb_lt (Z.to_nat i) (length msg))) by lia.
  assert (Hnext : uint16_t (i + 1) = i + 1) by (apply Z.mod_small; lia).
  rewrite Hnext.
  specialize (IH (i + 1) (<[Z.to_nat i := c]> msg)).
  rewrite length_insert in IH. apply IH; lia.
Qed.

Lemma gt511C3_checksum_in_bounds (msg : list byte) (n : Z) :
  0 <= n < 65536 -> n <= Z.of_nat (length msg) ->
  is_Some (gt511C3_checksum msg n).
Proof.
  intros Hn Hmsg.
  pose proof (gt511C3_checksum_prefix (take (Z.to_nat n) msg) (drop (Z.to_nat n) msg))
    as Hprefix.
  rewrite take_drop, length_take_le, Z2Nat.id in Hprefix by lia.
  rewrite Hprefix by lia. eexists. reflexivity.
Qed.

(** For a length between 2 and 65535 that fits the object, [gt511C3_recv]
    never leaves the object: it returns, or waits on the line. *)
Lemma gt511C3_recv_safe (msg : list byte) (L : Z) (st : driver_state)
    (cfg : imx_uart_config) :
  serial st = Some cfg ->
  2 <= L <= 65535 -> L <= Z.of_nat (length msg) ->
  match gt511C3_recv msg L st with
  | Fault => False
  | Blocked => True
  | Ret (_, msg', _) _ => length msg' = length msg
  end.
Proof.
  intros Hserial HL Hmsg. unfold gt511C3_recv. rewrite Hserial.
  pose proof (gt511C3_recv_loop_safe (rx st) cfg L 0 msg) as Hloop.
  destruct (gt511C3_recv_loop (Some cfg) (rx st) L 0 msg) as [i msg' rest| |];
    [|exact I|apply Hloop; lia].
  destruct Hloop as [-> Hlen]; try lia.
  assert (Hcs : uint16_t (L - 2) = L - 2) by (apply Z.mod_small; lia).
  rewrite Hcs.
  destruct (lookup_lt_is_Some_2 msg' (Z.to_nat (L - 2 + 1))) as [hi ->]; [lia|].
  destruct (lookup_lt_is_Some_2 msg' (Z.to_nat (L - 2))) as [lo ->]; [lia|].
  destruct (gt511C3_checksum_in_bounds msg' (L - 2)) as [cs ->]; try lia.
  destruct (negb _); exact Hlen.
Qed.

(** The in-driver calls with a length the 16-bit counter can reach touch no
    byte outside their objects: the response read of twelve bytes, and the
    data read for every payload of at most 65529 bytes into a destination
    that holds the payload. *)
Lemma in_range_calls_are_safe (st : driver_state) (cfg : imx_uart_config) :
  serial st = Some cfg ->
  (forall rsp, length rsp = 12%nat -> gt511C3_recv_response rsp st <> Fault) /\
  (forall data payload_len,
      Z.of_nat (length (data_frame st)) = 65536 ->
      0 <= payload_len <= 65529 ->
      payload_len <= Z.of_nat (length data) ->
      6 <= GT511C3_DATA_FRAME_SIZE payload_len /\
      gt511C3_recv_data data payload_len st <> Fault).
Proof.
  intros Hserial. split.
  - intros rsp Hrsp. unfold gt511C3_recv_response, mbind, driver_bind, bind.
    pose proof (gt511C3_recv_safe rsp sizeof_gt511C3_response st cfg Hserial) as Hsafe.
    destruct (gt511C3_recv rsp sizeof_gt511C3_response st) as [[[status rsp'] len] st'| |];
      [|discriminate|intros _; apply Hsafe; rewrite ?Hrsp; unfold sizeof_gt511C3_response; lia].
    destruct (failed status); [discriminate|].
    destruct (_ || _); [discriminate|].
    destruct (_ =? _); discriminate.
  - intros data payload_len Hdf Hlen Hdata.
    rewrite GT511C3_DATA_FRAME_SIZE_exact by lia.
    unfold frame_size, sizeof_gt511C3_data. split; [lia|].
    unfold gt511C3_recv_data. cbv zeta.
    rewrite GT511C3_DATA_FRAME_SIZE_exact by lia.
    unfold frame_size, sizeof_gt511C3_data.
    destruct (_ >? _); [discriminate|].
    unfold mbind, driver_bind, bind, get_data_frame, put_data_frame.
    pose proof (gt511C3_recv_safe (data_frame st) (5 - 1 + payload_len + 2) st cfg Hserial)
      as Hsafe.
    destruct (gt511C3_recv (data_frame st) (5 - 1 + payload_len + 2) st)
      as [[[status frame] len] st'| |]; [|discriminate|intros _; apply Hsafe; lia].
    specialize (Hsafe ltac:(lia) ltac:(lia)).
    destruct (failed status); [discriminate|].
    destruct (_ || _); [discriminate|].
    unfold memcpy, data_payload. rewrite length_drop.
    destruct (Z.leb_spec 0 payload_len); [|lia].
    destruct (Z.leb_spec payload_len (Z.of_nat (length frame - 4))); [|lia].
    destruct (Z.leb_spec payload_len (Z.of_nat (length data))); [|lia].
    discriminate.
Qed.

(** * Further properties of the driver *)

(** ** The receive routine and the line *)

Lemma gt511C3_recv_loop_blocked (line : list byte) (cfg : imx_uart_config)
    (L i : Z) (msg : list byte) :
  0 <= i -> L <= 65535 -> L <= Z.of_nat (length msg) ->
  Z.of_nat (length line) < L - i ->
  gt511C3_recv_loop (Some cfg) line L i msg = LBlocked.
Proof.
  intros Hi HL Hmsg. revert i msg Hi Hmsg.
  induction line as [|c line IH]; intros i msg Hi Hmsg Hline; simpl in *;
    rewrite (proj2 (Z.ltb_lt i L)) by lia; [reflexivity|].
  rewrite (proj2 (Nat.ltb_lt (Z.to_nat i) (length msg))) by lia.
  assert (Hnext : uint16_t (i + 1) = i + 1) by (apply Z.mod_small; lia).
  rewrite Hnext. apply IH; rewrite ?length_insert; lia.
Qed.

Lemma gt511C3_recv_blocked (msg : list byte) (L : Z) (st : driver_state)
    (cfg : imx_uart_config) :
  serial st = Some cfg ->
  L <= 65535 -> L <= Z.of_nat (length msg) ->
  Z.of_nat (length (rx st)) < L ->
  gt511C3_recv msg L st = Blocked.
Proof.
  intros Hserial HL Hmsg Hline. unfold gt511C3_recv. rewrite Hserial.
  rewrite gt511C3_recv_loop_blocked by lia. reflexivity.
Qed.

Lemma take_S_insert (l : list byte) (n : nat) (x : byte) :
  (n < length l)%nat -> take (S n) (<[n := x]> l) = take n l ++ [x].
Proof.
  intros Hn.
  rewrite (take_S_r (<[n := x]> l) n x) by (apply list_lookup_insert_eq, Hn).
  rewrite take_insert_ge by lia. reflexivity.
Qed.

(** Whenever the receive loop falls through, the counter has reached
    [*length], which is therefore at most 65535, and the bytes taken off the
    line sit in the object from the starting index on. *)
Lemma gt511C3_recv_loop_done_inv (line : list byte) (chip : option imx_uart_config)
    (L i : Z) (msg : list byte) (i' : Z) (msg' rest : list byte) :
  0 <= i <= 65535 -> i <= L ->
  gt511C3_recv_loop chip line L i msg = LDone i' msg' rest ->
  i' = L /\ L <= 65535 /\
  exists consumed,
    line = consumed ++ rest /\
    Z.of_nat (length consumed) = L - i /\
    msg' = take (Z.to_nat i) msg ++ consumed ++ drop (Z.to_nat L) msg.
Proof.
  revert i msg. induction line as [|c line IH]; intros i msg Hi HiL;
    simpl; destruct (Z.ltb_spec i L) as [Hlt|Hge]; intros Hloop.
  - destruct chip; discriminate Hloop.
  - injection Hloop as <- <- <-. assert (i = L) as -> by lia.
    split; [reflexivity|]. split; [lia|]. exists [].
    simpl app. rewrite take_drop. repeat split. simpl. lia.
  - destruct chip as [cfg|]; [|discriminate Hloop].
    revert Hloop.
    destruct (Nat.ltb_spec (Z.to_nat i) (length msg)) as [Hin|Hout]; intros Hloop;
      [|discriminate Hloop].
    destruct (Z_le_gt_dec 65536 L) as [Hwide|Hnarrow].
    { pose proof (gt511C3_recv_loop_never_done line (Some cfg) L (uint16_t (i + 1))
                    (<[Z.to_nat i := c]> msg) Hwide) as Hnever.
      rewrite Hloop in Hnever. exfalso. apply Hnever.
      unfold uint16_t. apply Z.mod_pos_bound. lia. }
    assert (Hnext : uint16_t (i + 1) = i + 1) by (apply Z.mod_small; lia).
    rewrite Hnext in Hloop.
    destruct (IH (i + 1) (<[Z.to_nat i := c]> msg)) as (-> & _ & consumed & -> & Hlen & ->);
      [lia | lia | exact Hloop |].
    split; [reflexivity|]. split; [lia|]. exists (c :: consumed).
    split; [reflexivity|]. split; [simpl length; lia|].
    replace (Z.to_nat (i + 1)) with (S (Z.to_nat i)) by lia.
    rewrite take_S_insert by exact Hin.
    rewrite drop_insert_lt by lia.
    rewrite <- app_assoc. reflexivity.
  - injection Hloop as <- <- <-. assert (i = L) as -> by lia.
    split; [reflexivity|]. split; [lia|]. exists [].
    simpl app. rewrite take_drop. repeat split. simpl. lia.
Qed.

(** X1: whenever [gt511C3_recv] returns, it has taken exactly [*length]
    bytes off the line (so [*length] was at most 65535), stored them at the
    front of the object and left the rest of the object, [serial], the sent
    bytes and the static buffer as they were; it hands back [*length]
    unchanged and a status that is success or [TEE_ERROR_COMMUNICATION]. *)
Theorem gt511C3_recv_consumes_exactly (msg : list byte) (L : Z) (st : driver_state)
    (status : TEE_Result) (msg' : list byte) (len : Z) (st' : driver_state) :
  0 <= L ->
  gt511C3_recv msg L st = Ret (status, msg', len) st' ->
  len = L /\ L <= 65535 /\
  (exists consumed,
      rx st = consumed ++ rx st' /\
      Z.of_nat (length consumed) = L /\
      msg' = consumed ++ drop (Z.to_nat L) msg) /\
  st' = set_rx (rx st') st /\
  (status = TEE_SUCCESS \/ status = TEE_ERROR_COMMUNICATION).
Proof.
  intros HL Hrecv. unfold gt511C3_recv in Hrecv.
  destruct (gt511C3_recv_loop (serial st) (rx st) L 0 msg) as [i m rest| |] eqn:Hloop;
    [|discriminate Hrecv|discriminate Hrecv].
  apply gt511C3_recv_loop_done_inv in Hloop; [|lia|lia].
  destruct Hloop as (-> & HL' & consumed & Hline & Hlen & ->).
  assert (Hres : forall s, Ret (s, take (Z.to_nat 0) msg ++ consumed ++ drop (Z.to_nat L) msg, L)
                               (set_rx rest st) = Ret (status, msg', len) st' ->
                           len = L /\ L <= 65535 /\
                           (exists consumed0,
                               rx st = consumed0 ++ rx st' /\
                               Z.of_nat (length consumed0) = L /\
                               msg' = consumed0 ++ drop (Z.to_nat L) msg) /\
                           st' = set_rx (rx st') st /\ s = status).
  { intros s Hs. injection Hs as <- <- <- <-.
    split; [reflexivity|]. split; [exact HL'|].
    split; [exists consumed; repeat split; [exact Hline | lia]|].
    split; reflexivity. }
  destruct (_ !! _) as [hi|]; [|discriminate Hrecv].
  destruct (_ !! _) as [lo|]; [|discriminate Hrecv].
  destruct (gt511C3_checksum _ _) as [cs|]; [|discriminate Hrecv].
  destruct (negb _); apply Hres in Hrecv;
    destruct Hrecv as (H1 & H2 & H3 & H4 & <-); repeat split; auto.
Qed.

Lemma gt511C3_recv_consumes_exactly_witness :
  2 = 2 /\ 2 <= 65535 /\
  (exists consumed,
      rx (open_state [x00; x00; x07]) = consumed ++ rx (set_rx [x07] (open_state [x00; x00; x07])) /\
      Z.of_nat (length consumed) = 2 /\
      [x00; x00; xff] = consumed ++ drop (Z.to_nat 2) [xff; xff; xff]) /\
  set_rx [x07] (open_state [x00; x00; x07])
  = set_rx (rx (set_rx [x07] (open_state [x00; x00; x07]))) (open_state [x00; x00; x07]) /\
  (TEE_SUCCESS = TEE_SUCCESS \/ TEE_SUCCESS = TEE_ERROR_COMMUNICATION).
Proof.
  apply (gt511C3_recv_consumes_exactly [xff; xff; xff] 2 (open_state [x00; x00; x07])
           TEE_SUCCESS [x00; x00; xff] 2 (set_rx [x07] (open_state [x00; x00; x07])));
    [lia | reflexivity].
Defined.

(** X2: with the line open, for a length from 2 to 65535 that fits the
    object, [gt511C3_recv] returns exactly when the line holds that many
    bytes: on a shorter line it waits for ever, otherwise it consumes the
    first [*length] bytes and reports the verdict of the trailer check on
    them. *)
Theorem gt511C3_recv_waits_for_whole_frame (msg : list byte) (L : Z) (st : driver_state)
    (cfg : imx_uart_config) :
  serial st = Some cfg ->
  2 <= L <= 65535 -> L <= Z.of_nat (length msg) ->
  (Z.of_nat (length (rx st)) < L -> gt511C3_recv msg L st = Blocked) /\
  (L <= Z.of_nat (length (rx st)) ->
   gt511C3_recv msg L st
   = Ret (if trailer_matches (take (Z.to_nat L) (rx st))
          then TEE_SUCCESS else TEE_ERROR_COMMUNICATION,
          take (Z.to_nat L) (rx st) ++ drop (Z.to_nat L) msg, L)
         (set_rx (drop (Z.to_nat L) (rx st)) st)).
Proof.
  intros Hserial HL Hmsg. split; intros Hline.
  - apply (gt511C3_recv_blocked msg L st cfg); assumption || lia.
  - assert (Hlen : length (take (Z.to_nat L) (rx st)) = Z.to_nat L)
      by (apply length_take_le; lia).
    pose proof (gt511C3_recv_exact st cfg (take (Z.to_nat L) (rx st))
                  (drop (Z.to_nat L) (rx st)) msg Hserial) as Hexact.
    rewrite take_drop, Hlen, Z2Nat.id in Hexact by lia.
    apply Hexact; [reflexivity | lia | lia].
Qed.

Lemma gt511C3_recv_waits_for_whole_frame_witness :
  gt511C3_recv [xff; xff; xff] 2 (open_state [x00]) = Blocked.
Proof.
  apply (gt511C3_recv_waits_for_whole_frame [xff; xff; xff] 2 (open_state [x00]) reset_config);
    [reflexivity | lia | simpl; lia | simpl; lia].
Defined.

(** ** What the checksum detects and what it does not *)

Lemma byte_sum_Permutation (a b : list byte) : a ≡ₚ b -> byte_sum a = byte_sum b.
Proof.
  induction 1 as [|x a b _ IH|x y a|a b c _ IHab _ IHbc]; simpl; lia.
Qed.

(** X3: the checksum does not see the order of the bytes: two sequences
    that are permutations of one another have the same checksum, so the
    trailer check of the receive layer gives the same verdict on both. *)
Theorem checksum_ignores_order (a b : list byte) (lo hi : byte) :
  a ≡ₚ b ->
  Z.of_nat (length a) < 65536 ->
  checksum a = checksum b /\
  trailer_matches (a ++ [lo; hi]) = trailer_matches (b ++ [lo; hi]).
Proof.
  intros Hperm Hlen.
  assert (Hlenb : Z.of_nat (length b) < 65536)
    by (rewrite <- (Permutation_length Hperm); exact Hlen).
  split.
  - rewrite !checksum_sum, (byte_sum_Permutation a b Hperm) by assumption. reflexivity.
  - rewrite !trailer_matches_split, (byte_sum_Permutation a b Hperm) by assumption.
    reflexivity.
Qed.

Lemma checksum_ignores_order_witness :
  checksum [x5a; xa5; x01] = checksum [x01; xa5; x5a] /\
  trailer_matches ([x5a; xa5; x01] ++ [x00; x01])
  = trailer_matches ([x01; xa5; x5a] ++ [x00; x01]).
Proof.
  apply (checksum_ignores_order [x5a; xa5; x01] [x01; xa5; x5a] x00 x01);
    [|simpl; lia].
  apply (perm_trans (l' := [xa5; x5a; x01])); [apply perm_swap|].
  apply (perm_trans (l' := [xa5; x01; x5a])); [apply perm_skip, perm_swap|].
  apply perm_swap.
Defined.

Lemma byte_sum_insert (body : list byte) (i : nat) (b b' : byte) :
  body !! i = Some b ->
  byte_sum (<[i := b']> body) = byte_sum body - u8 b + u8 b'.
Proof.
  revert i. induction body as [|x body IH]; intros [|i] Hb; simpl in *;
    try discriminate.
  - injection Hb as ->. lia.
  - rewrite (IH i Hb). lia.
Qed.

Lemma int16_t_eq_mod (a b : Z) : int16_t a = int16_t b -> (a - b) mod 65536 = 0.
Proof.
  unfold int16_t. intros Heq.
  assert (Hm : (a + 32768) mod 65536 = (b + 32768) mod 65536) by lia.
  replace (a - b) with ((a + 32768) - (b + 32768)) by lia.
  rewrite Zminus_mod, Hm, Z.sub_diag. reflexivity.
Qed.

Lemma u8_inj (b b' : byte) : u8 b = u8 b' -> b = b'.
Proof.
  intros Heq. rewrite <- (byte_of_Z_u8 b), <- (byte_of_Z_u8 b'), Heq. reflexivity.
Qed.

Lemma trailer_rejects_changed_byte (body : list byte) (lo hi : byte) (i : nat) (b b' : byte) :
  Z.of_nat (length body) < 65536 ->
  trailer_matches (body ++ [lo; hi]) = true ->
  body !! i = Some b -> b' <> b ->
  trailer_matches (<[i := b']> body ++ [lo; hi]) = false.
Proof.
  intros Hlen Hok Hb Hne.
  rewrite trailer_matches_split in Hok by exact Hlen.
  rewrite trailer_matches_split by (rewrite length_insert; exact Hlen).
  apply Z.eqb_eq in Hok. apply Z.eqb_neq. intros Hbad.
  rewrite Hok, (byte_sum_insert body i b b' Hb) in Hbad.
  apply int16_t_eq_mod in Hbad.
  replace (byte_sum body - (byte_sum body - u8 b + u8 b')) with (u8 b - u8 b') in Hbad by lia.
  pose proof (u8_range b). pose proof (u8_range b').
  apply Hne, u8_inj.
  destruct (Z_lt_dec (u8 b) (u8 b')) as [Hlt|Hge].
  - replace (u8 b - u8 b') with (u8 b - u8 b' + 65536 + (-1) * 65536) in Hbad by lia.
    rewrite Z_mod_plus_full, Z.mod_small in Hbad by lia. lia.
  - rewrite Z.mod_small in Hbad by lia. lia.
Qed.

(** X4: a frame that passed the trailer check no longer passes it once any
    single byte in front of the trailer is replaced by a different value:
    [gt511C3_recv] then returns [TEE_ERROR_COMMUNICATION], and so does
    [gt511C3_recv_response] for a twelve-byte frame. *)
Theorem single_byte_corruption_detected (st : driver_state) (cfg : imx_uart_config)
    (body : list byte) (lo hi : byte) (rest msg : list byte) (i : nat) (b b' : byte) :
  serial st = Some cfg ->
  trailer_matches (body ++ [lo; hi]) = true ->
  body !! i = Some b -> b' <> b ->
  rx st = (<[i := b']> body ++ [lo; hi]) ++ rest ->
  Z.of_nat (length body) + 2 <= 65535 ->
  (length body + 2 <= length msg)%nat ->
  gt511C3_recv msg (Z.of_nat (length body) + 2) st
  = Ret (TEE_ERROR_COMMUNICATION,
         (<[i := b']> body ++ [lo; hi]) ++ drop (length body + 2) msg,
         Z.of_nat (length body) + 2)
        (set_rx rest st) /\
  (length body = 10%nat ->
   gt511C3_recv_response local_rsp st
   = Ret (TEE_ERROR_COMMUNICATION, <[i := b']> body ++ [lo; hi]) (set_rx rest st)).
Proof.
  intros Hserial Hok Hb Hne Hrx Hlen Hmsg.
  assert (Hbad : trailer_matches (<[i := b']> body ++ [lo; hi]) = false)
    by (apply (trailer_rejects_changed_byte body lo hi i b b'); assumption || lia).
  assert (Hflen : length (<[i := b']> body ++ [lo; hi]) = (length body + 2)%nat)
    by (rewrite length_app, length_insert; reflexivity).
  split.
  - pose proof (gt511C3_recv_exact st cfg (<[i := b']> body ++ [lo; hi]) rest msg
                  Hserial Hrx) as Hexact.
    rewrite Hflen, Hbad in Hexact.
    replace (Z.of_nat (length body) + 2) with (Z.of_nat (length body + 2)) by lia.
    apply Hexact; lia.
  - intros Hten.
    rewrite (gt511C3_recv_response_exact st cfg (<[i := b']> body ++ [lo; hi]) rest
               local_rsp Hserial Hrx) by (rewrite ?Hflen, ?Hten; reflexivity).
    unfold response_status. rewrite Hbad. reflexivity.
Qed.

Lemma single_byte_corruption_detected_witness :
  gt511C3_recv_response local_rsp
    (open_state ((<[4%nat := x01]> (take 10 ack_frame) ++ [x30; x01]) ++ [x07]))
  = Ret (TEE_ERROR_COMMUNICATION, <[4%nat := x01]> (take 10 ack_frame) ++ [x30; x01])
        (set_rx [x07]
           (open_state ((<[4%nat := x01]> (take 10 ack_frame) ++ [x30; x01]) ++ [x07]))).
Proof.
  apply (single_byte_corruption_detected
           (open_state ((<[4%nat := x01]> (take 10 ack_frame) ++ [x30; x01]) ++ [x07]))
           reset_config (take 10 ack_frame) x30 x01 [x07] local_rsp 4 x00 x01);
    try reflexivity; try (vm_compute; discriminate); simpl; lia.
Defined.

(** ** Responses *)

(** X5: a received twelve-byte response is accepted exactly when its
    trailer holds the checksum of its first ten bytes, its start codes are
    0x55, 0xAA and it is not a non-acknowledge with a non-zero parameter;
    the device id and the acknowledge code are not examined, so any
    response kind other than 0x31 counts as an acknowledgement. *)
Theorem recv_response_success_iff (st : driver_state) (cfg : imx_uart_config)
    (frame rest rsp : list byte) :
  serial st = Some cfg ->
  rx st = frame ++ rest ->
  length frame = 12%nat ->
  length rsp = 12%nat ->
  exists status,
    gt511C3_recv_response rsp st = Ret (status, frame) (set_rx rest st) /\
    (status = TEE_SUCCESS <->
     trailer_matches frame = true /\
     rsp_start_code1 frame = GT511C3_RSP_START_CODE1 /\
     rsp_start_code2 frame = GT511C3_RSP_START_CODE2 /\
     (rsp_response frame = GT511C3_RSP_NACK -> rsp_parameter frame = GT511C3_SUCCESS)).
Proof.
  intros Hserial Hrx Hframe Hrsp.
  exists (response_status frame).
  split; [apply (gt511C3_recv_response_exact st cfg); assumption|].
  unfold response_status.
  destruct (trailer_matches frame); simpl negb; cbv iota;
    [|split; [discriminate | intros [Hf _]; discriminate Hf]].
  destruct (Z.eqb_spec (rsp_start_code1 frame) GT511C3_RSP_START_CODE1) as [H1|H1];
    simpl; [|split; [discriminate | intros (_ & H & _); contradiction]].
  destruct (Z.eqb_spec (rsp_start_code2 frame) GT511C3_RSP_START_CODE2) as [H2|H2];
    simpl; [|split; [discriminate | intros (_ & _ & H & _); contradiction]].
  destruct (Z.eqb_spec (rsp_response frame) GT511C3_RSP_NACK) as [Hn|Hn].
  - rewrite gt511C3_to_tee_success_iff. split.
    + intros Hp. split; [reflexivity|]. split; [exact H1|]. split; [exact H2|].
      intros _. exact Hp.
    + intros (_ & _ & _ & Hp). apply Hp, Hn.
  - split; [|reflexivity]. intros _.
    split; [reflexivity|]. split; [exact H1|]. split; [exact H2|].
    intros Hk. contradiction.
Qed.

Lemma recv_response_success_iff_witness :
  exists status,
    gt511C3_recv_response local_rsp (open_state (ack_frame ++ [x07]))
    = Ret (status, ack_frame) (set_rx [x07] (open_state (ack_frame ++ [x07]))) /\
    (status = TEE_SUCCESS <->
     trailer_matches ack_frame = true /\
     rsp_start_code1 ack_frame = GT511C3_RSP_START_CODE1 /\
     rsp_start_code2 ack_frame = GT511C3_RSP_START_CODE2 /\
     (rsp_response ack_frame = GT511C3_RSP_NACK -> rsp_parameter ack_frame = GT511C3_SUCCESS)).
Proof.
  apply (recv_response_success_iff (open_state (ack_frame ++ [x07])) reset_config
           ack_frame [x07] local_rsp); reflexivity.
Defined.

(** ** Command frames on the wire *)

Lemma uint32_t_split (v : Z) :
  uint8_t v + Z.shiftl (uint8_t (Z.shiftr v 8)) 8
  + Z.shiftl (uint8_t (Z.shiftr v 16)) 16 + Z.shiftl (uint8_t (Z.shiftr v 24)) 24
  = uint32_t v.
Proof.
  unfold uint8_t, uint32_t.
  rewrite !Z.shiftl_mul_pow2, !Z.shiftr_div_pow2 by lia.
  change (2 ^ 8) with 256. change (2 ^ 16) with 65536. change (2 ^ 24) with 16777216.
  change 4294967296 with (256 * (256 * (256 * 256))).
  rewrite !Z.rem_mul_r by lia. rewrite !Z.div_div by lia.
  change (256 * 256) with 65536. change (65536 * 256) with 16777216. lia.
Qed.

Lemma load8_app (pre l : list byte) (k n : nat) :
  n = (length pre + k)%nat -> load8 (pre ++ l) n = load8 l k.
Proof.
  intros ->. unfold load8. rewrite lookup_app_r; [|lia].
  replace (length pre + k - length pre)%nat with k by lia. reflexivity.
Qed.

Lemma load32_store32 (pre post : list byte) (v : Z) :
  load32 (pre ++ store32 v ++ post) (length pre) = uint32_t v.
Proof.
  unfold load32.
  rewrite (load8_app pre _ 0 (length pre)), (load8_app pre _ 1 (length pre + 1)),
    (load8_app pre _ 2 (length pre + 2)), (load8_app pre _ 3 (length pre + 3)) by lia.
  unfold load8, store32. simpl. rewrite !u8_byte_of_Z. apply uint32_t_split.
Qed.

(** X6: the twelve bytes of a command read back, field by field, as what
    was put in: the start codes 0x55, 0xAA at offsets 0 and 1, the device id
    1 at offset 2, the parameter as a little-endian 32-bit value at offset 4
    and the command code as a little-endian 16-bit value at offset 8. *)
Theorem command_round_trip (cmd_code parameter : Z) :
  exists cmd,
    checksummed (set_cmd_parameter parameter (GT511C3_INIT_COMMAND cmd_code)) = Some cmd /\
    load8 (command_bytes cmd) 0 = GT511C3_CMD_START_CODE1 /\
    load8 (command_bytes cmd) 1 = GT511C3_CMD_START_CODE2 /\
    load16 (command_bytes cmd) 2 = GT511C3_CMD_DEVICE_ID /\
    load32 (command_bytes cmd) 4 = uint32_t parameter /\
    int16_t (load16 (command_bytes cmd) 8) = int16_t cmd_code.
Proof.
  eexists. split; [apply checksummed_eq|].
  set (cmd0 := set_cmd_parameter parameter (GT511C3_INIT_COMMAND cmd_code)).
  set (cs := int16_t (byte_sum (command_head cmd0))).
  split; [reflexivity|]. split; [reflexivity|]. split; [reflexivity|].
  split.
  - change (command_bytes (set_cmd_checksum cs cmd0))
      with ([byte_of_Z GT511C3_CMD_START_CODE1; byte_of_Z GT511C3_CMD_START_CODE2;
             byte_of_Z GT511C3_CMD_DEVICE_ID; byte_of_Z (Z.shiftr GT511C3_CMD_DEVICE_ID 8)]
            ++ store32 (uint32_t parameter)
            ++ (store16 (int16_t cmd_code) ++ store16 (int16_t cs))).
    change 4%nat with (length [byte_of_Z GT511C3_CMD_START_CODE1;
                               byte_of_Z GT511C3_CMD_START_CODE2;
                               byte_of_Z GT511C3_CMD_DEVICE_ID;
                               byte_of_Z (Z.shiftr GT511C3_CMD_DEVICE_ID 8)]).
    rewrite load32_store32. unfold uint32_t. apply Z.mod_mod. lia.
  - change (command_bytes (set_cmd_checksum cs cmd0))
      with (([byte_of_Z GT511C3_CMD_START_CODE1; byte_of_Z GT511C3_CMD_START_CODE2;
              byte_of_Z GT511C3_CMD_DEVICE_ID; byte_of_Z (Z.shiftr GT511C3_CMD_DEVICE_ID 8)]
             ++ store32 (uint32_t parameter))
            ++ store16 (int16_t cmd_code) ++ store16 (int16_t cs)).
    change 8%nat with (length ([byte_of_Z GT511C3_CMD_START_CODE1;
                                byte_of_Z GT511C3_CMD_START_CODE2;
                                byte_of_Z GT511C3_CMD_DEVICE_ID;
                                byte_of_Z (Z.shiftr GT511C3_CMD_DEVICE_ID 8)]
                               ++ store32 (uint32_t parameter))).
    rewrite load16_store16, int16_t_uint16_t. apply int16_t_idem.
Qed.

(** ** UART bring-up *)

(** X7: [gt511C3_init] always returns, and in one of two ways: with
    [TEE_ERROR_BAD_PARAMETERS] and every global untouched, or with success
    and [serial] pointing at a UART that [imx_uart_init_ex] accepted at a
    baud rate of at most 115200; on reset that rate is 9600 whatever the
    caller asked for and the base address is non-zero, otherwise it is the
    caller's rate. *)
Theorem gt511C3_init_outcomes `{Platform} (device_config : GT511C3_DeviceConfig)
    (reset : bool) (st : driver_state) :
  gt511C3_init device_config reset st = Ret TEE_ERROR_BAD_PARAMETERS st \/
  exists uart,
    gt511C3_init device_config reset st = Ret TEE_SUCCESS (set_serial (Some uart) st) /\
    clock_hz uart = uart_clock_hz device_config /\
    cfg_baud_rate uart <= GT511C3_MAX_BAUDRATE /\
    cfg_baud_rate uart
    = (if reset then GT511C3_RESET_BAUDRATE else baud_rate device_config) /\
    (if reset then negb (uart_base_pa device_config =? 0) else true) = true /\
    imx_uart_init_ex (uart_base_pa device_config) uart = true.
Proof.
  unfold gt511C3_init. cbv zeta. cbn [cfg_baud_rate clock_hz].
  destruct (Z.gtb_spec (if reset then GT511C3_RESET_BAUDRATE else baud_rate device_config)
              GT511C3_MAX_BAUDRATE) as [Hgt|Hle]; [left; reflexivity|].
  destruct (reset && (uart_base_pa device_config =? 0)) eqn:Hbase; [left; reflexivity|].
  destruct (imx_uart_init_ex _ _) eqn:Hinit; [|left; reflexivity].
  right. eexists. split; [reflexivity|]. cbn [cfg_baud_rate clock_hz].
  split; [reflexivity|]. split; [exact Hle|]. split; [reflexivity|].
  split; [|exact Hinit].
  destruct reset; [|reflexivity]. simpl in Hbase. rewrite Hbase. reflexivity.
Qed.

(** ** A command exchange *)

Lemma gt511C3_recv_response_blocked (rsp : list byte) (st : driver_state)
    (cfg : imx_uart_config) :
  serial st = Some cfg ->
  length rsp = 12%nat ->
  Z.of_nat (length (rx st)) < 12 ->
  gt511C3_recv_response rsp st = Blocked.
Proof.
  intros Hserial Hrsp Hline. unfold gt511C3_recv_response, mbind, driver_bind, bind.
  rewrite (gt511C3_recv_blocked rsp sizeof_gt511C3_response st cfg Hserial)
    by (unfold sizeof_gt511C3_response; rewrite ?Hrsp; simpl; lia).
  reflexivity.
Qed.

(** On an open line with fewer than twelve bytes to come, the command is
    sent and the exchange then waits for ever. *)
Lemma gt511C3_send_cmd_blocked (cmd : gt511C3_command) (st : driver_state)
    (cfg : imx_uart_config) :
  serial st = Some cfg ->
  Z.of_nat (length (rx st)) < 12 ->
  gt511C3_send_cmd cmd None st = Blocked.
Proof.
  intros Hserial Hline. unfold gt511C3_send_cmd. rewrite checksummed_eq.
  unfold mbind, driver_bind, bind.
  rewrite (putc_all_exact _ st cfg Hserial).
  rewrite (gt511C3_recv_response_blocked _ _ cfg) by (assumption || reflexivity).
  reflexivity.
Qed.

(** X8: [gt511C3_send_cmd] returns exactly when [serial] is set and the
    line holds at least twelve bytes; it has then sent the twelve bytes of
    the checksummed command, consumed the first twelve bytes of the line
    and touched nothing else, and its status is the one derived from those
    twelve bytes. *)
Theorem gt511C3_send_cmd_returns_iff (cmd : gt511C3_command) (st : driver_state)
    (status : TEE_Result) (st' : driver_state) :
  gt511C3_send_cmd cmd None st = Ret status st' <->
  exists cfg frame rest cmd',
    serial st = Some cfg /\
    rx st = frame ++ rest /\
    length frame = 12%nat /\
    checksummed cmd = Some cmd' /\
    length (command_bytes cmd') = 12%nat /\
    status = response_status frame /\
    st' = set_rx rest (set_tx (tx st ++ command_bytes cmd') st).
Proof.
  split.
  - intros Hsend.
    destruct (serial st) as [cfg|] eqn:Hserial;
      [|rewrite gt511C3_send_cmd_closed in Hsend by exact Hserial; discriminate Hsend].
    destruct (Z_lt_ge_dec (Z.of_nat (length (rx st))) 12) as [Hshort|Hlong];
      [rewrite (gt511C3_send_cmd_blocked cmd st cfg Hserial Hshort) in Hsend;
       discriminate Hsend|].
    assert (Hrx : rx st = take 12 (rx st) ++ drop 12 (rx st))
      by (symmetry; apply take_drop).
    assert (Hlen : length (take 12 (rx st)) = 12%nat) by (apply length_take_le; lia).
    destruct (gt511C3_send_cmd_exact cmd st cfg _ _ Hserial Hrx Hlen) as (cmd' & Hcs & Hex).
    rewrite Hex in Hsend. injection Hsend as <- <-.
    exists cfg, (take 12 (rx st)), (drop 12 (rx st)), cmd'.
    rewrite checksummed_eq in Hcs. injection Hcs as <-.
    repeat split; try assumption. apply checksummed_eq.
  - intros (cfg & frame & rest & cmd' & Hserial & Hrx & Hlen & Hcs & _ & -> & ->).
    destruct (gt511C3_send_cmd_exact cmd st cfg frame rest Hserial Hrx Hlen)
      as (cmd'' & Hcs' & Hex).
    rewrite Hcs in Hcs'. injection Hcs' as <-. exact Hex.
Qed.

Lemma gt511C3_send_cmd_returns_iff_witness :
  exists cfg frame rest cmd',
    serial (open_state (ack_frame ++ [x07])) = Some cfg /\
    rx (open_state (ack_frame ++ [x07])) = frame ++ rest /\
    length frame = 12%nat /\
    checksummed (GT511C3_INIT_COMMAND GT511C3_CMD_CLOSE) = Some cmd' /\
    length (command_bytes cmd') = 12%nat /\
    TEE_SUCCESS = response_status frame /\
    set_rx [x07] (set_tx (bytes_of [0x55; 0xAA; 0x01; 0x00; 0x00; 0x00; 0x00; 0x00;
                                    0x02; 0x00; 0x02; 0x01])
                    (open_state (ack_frame ++ [x07])))
    = set_rx rest (set_tx (tx (open_state (ack_frame ++ [x07])) ++ command_bytes cmd')
                     (open_state (ack_frame ++ [x07]))).
Proof.
  apply (proj1 (gt511C3_send_cmd_returns_iff (GT511C3_INIT_COMMAND GT511C3_CMD_CLOSE)
                  (open_state (ack_frame ++ [x07])) TEE_SUCCESS _)).
  reflexivity.
Defined.

(** ** Data frames, received *)

Lemma gt511C3_recv_state (msg : list byte) (L : Z) (st : driver_state)
    (r : TEE_Result * list byte * Z) (st' : driver_state) :
  gt511C3_recv msg L st = Ret r st' -> exists rest, st' = set_rx rest st.
Proof.
  unfold gt511C3_recv. intros Hrecv.
  destruct (gt511C3_recv_loop _ _ _ _ _) as [i m rest| |];
    [|discriminate Hrecv|discriminate Hrecv].
  exists rest.
  destruct (_ !! _); [|discriminate Hrecv].
  destruct (_ !! _); [|discriminate Hrecv].
  destruct (gt511C3_checksum _ _); [|discriminate Hrecv].
  destruct (negb _); injection Hrecv as _ <-; reflexivity.
Qed.

Lemma load8_app_l (frame tail : list byte) (k : nat) :
  (k < length frame)%nat -> load8 (frame ++ tail) k = load8 frame k.
Proof.
  intros Hk. unfold load8. rewrite lookup_app_l by exact Hk. reflexivity.
Qed.

(** [gt511C3_recv_data] on a line that delivers the whole frame of a
    payload of at most 65529 bytes. *)
Lemma gt511C3_recv_data_exact (data : list byte) (N : Z) (st : driver_state)
    (cfg : imx_uart_config) (frame rest : list byte) :
  serial st = Some cfg ->
  rx st = frame ++ rest ->
  Z.of_nat (length frame) = N + 6 ->
  0 <= N <= 65529 ->
  Z.of_nat (length (data_frame st)) = 65536 ->
  N <= Z.of_nat (length data) ->
  gt511C3_recv_data data N st
  = Ret (data_frame_status frame,
         if failed (data_frame_status frame) then data
         else take (Z.to_nat N) (drop 4 frame) ++ drop (Z.to_nat N) data)
        (set_data_frame (frame ++ drop (length frame) (data_frame st)) (set_rx rest st)).
Proof.
  intros Hserial Hrx Hlen HN Hdf Hdata.
  unfold gt511C3_recv_data. cbv zeta.
  rewrite GT511C3_DATA_FRAME_SIZE_exact by lia.
  replace (frame_size N) with (Z.of_nat (length frame))
    by (unfold frame_size, sizeof_gt511C3_data; lia).
  destruct (Z.gtb_spec (Z.of_nat (length frame)) sizeof_gt511C3_data_frame) as [Hgt|_];
    [change sizeof_gt511C3_data_frame with 65536 in Hgt; lia|].
  unfold mbind, driver_bind, bind, get_data_frame, put_data_frame.
  rewrite (gt511C3_recv_exact st cfg frame rest (data_frame st) Hserial Hrx) by lia.
  unfold data_frame_status, data_start_code1, data_start_code2.
  destruct (trailer_matches frame); [|reflexivity].
  change (failed TEE_SUCCESS) with false. cbv beta iota. simpl negb at 1. cbv iota.
  rewrite !load8_app_l by lia.
  destruct (_ || _); [reflexivity|].
  change (failed TEE_SUCCESS) with false. cbv iota.
  unfold memcpy, data_payload.
  rewrite length_drop, length_app, length_drop.
  destruct (Z.leb_spec 0 N); [|lia].
  destruct (Z.leb_spec N (Z.of_nat (length frame + (length (data_frame st) - length frame) - 4)));
    [|lia].
  destruct (Z.leb_spec N (Z.of_nat (length data))); [|lia].
  simpl andb. cbv iota.
  rewrite drop_app_le by lia. rewrite take_app_le by (rewrite length_drop; lia).
  reflexivity.
Qed.

(** X9: when the line delivers a data frame of [N + 6] bytes (for a payload
    length [N] of at most 65529) whose trailer holds the checksum of the
    bytes before it and whose start codes are 0x5A, 0xA5,
    [gt511C3_recv_data] succeeds and the destination receives exactly the
    [N] bytes found at offsets 4 to [4 + N] of the frame, the bytes of the
    destination past [N] staying as they were; the device id is not
    examined. *)
Theorem gt511C3_recv_data_payload (data : list byte) (N : Z) (st : driver_state)
    (cfg : imx_uart_config) (frame rest : list byte) :
  serial st = Some cfg ->
  rx st = frame ++ rest ->
  Z.of_nat (length frame) = N + 6 ->
  0 <= N <= 65529 ->
  Z.of_nat (length (data_frame st)) = 65536 ->
  N <= Z.of_nat (length data) ->
  trailer_matches frame = true ->
  data_start_code1 frame = GT511C3_DATA_START_CODE1 ->
  data_start_code2 frame = GT511C3_DATA_START_CODE2 ->
  gt511C3_recv_data data N st
  = Ret (TEE_SUCCESS, take (Z.to_nat N) (drop 4 frame) ++ drop (Z.to_nat N) data)
        (set_data_frame (frame ++ drop (length frame) (data_frame st)) (set_rx rest st)).
Proof.
  intros Hserial Hrx Hlen HN Hdf Hdata Htrailer Hs1 Hs2.
  rewrite (gt511C3_recv_data_exact data N st cfg frame rest) by assumption.
  unfold data_frame_status. rewrite Htrailer, Hs1, Hs2. reflexivity.
Qed.

Lemma gt511C3_recv_data_payload_witness :
  gt511C3_recv_data [xff; xff; xff; xff; xff] 4 (open_state (four_byte_data_frame ++ [x07]))
  = Ret (TEE_SUCCESS,
         take (Z.to_nat 4) (drop 4 four_byte_data_frame)
         ++ drop (Z.to_nat 4) [xff; xff; xff; xff; xff])
        (set_data_frame
           (four_byte_data_frame
            ++ drop (length four_byte_data_frame)
                 (data_frame (open_state (four_byte_data_frame ++ [x07]))))
           (set_rx [x07] (open_state (four_byte_data_frame ++ [x07])))).
Proof.
  apply (gt511C3_recv_data_payload [xff; xff; xff; xff; xff] 4
           (open_state (four_byte_data_frame ++ [x07])) reset_config
           four_byte_data_frame [x07]);
    try reflexivity; try (simpl; lia); vm_compute; reflexivity.
Defined.

(** X10: whenever [gt511C3_recv_data] returns, the destination object
    keeps its size, [serial] and the sent bytes are as before, and on any
    status other than success the destination is exactly as it was. *)
Theorem gt511C3_recv_data_failure_keeps_destination (data : list byte) (length_ : Z)
    (st : driver_state) (status : TEE_Result) (data' : list byte) (st' : driver_state) :
  gt511C3_recv_data data length_ st = Ret (status, data') st' ->
  (failed status = true -> data' = data) /\
  length data' = length data /\
  serial st' = serial st /\
  tx st' = tx st.
Proof.
  unfold gt511C3_recv_data. cbv zeta.
  destruct (_ >? _).
  { intros Hret. injection Hret as <- <- <-. repeat split. }
  unfold mbind, driver_bind, bind, get_data_frame, put_data_frame.
  destruct (gt511C3_recv (data_frame st) (GT511C3_DATA_FRAME_SIZE length_) st)
    as [[[s frame] len] st1| |] eqn:Hrecv; [|discriminate|discriminate].
  apply gt511C3_recv_state in Hrecv. destruct Hrecv as [rest ->].
  destruct (failed s) eqn:Hs.
  { intros Hret. injection Hret as <- <- <-. repeat split. }
  destruct (_ || _).
  { intros Hret. injection Hret as <- <- <-. repeat split. }
  unfold memcpy.
  destruct (Z.leb_spec 0 length_); [|discriminate].
  destruct (Z.leb_spec length_ (Z.of_nat (length (data_payload frame)))); [|discriminate].
  destruct (Z.leb_spec length_ (Z.of_nat (length data))); [|discriminate].
  simpl andb. cbv iota.
  intros Hret. injection Hret as <- <- <-.
  split; [intros Hf; discriminate Hf|].
  split; [|split; reflexivity].
  rewrite length_app, length_take_le, length_drop by lia. lia.
Qed.

Lemma gt511C3_recv_data_failure_keeps_destination_witness :
  (failed TEE_ERROR_COMMUNICATION = true -> [xff; xff; xff; xff; xff; xff] = [xff; xff; xff; xff; xff; xff]) /\
  length [xff; xff; xff; xff; xff; xff] = length [xff; xff; xff; xff; xff; xff] /\
  serial (set_data_frame
            (bad_marker_frame ++ drop 12 zero_data_frame)
            (set_rx [x07] (open_state (bad_marker_frame ++ [x07]))))
  = serial (open_state (bad_marker_frame ++ [x07])) /\
  tx (set_data_frame
        (bad_marker_frame ++ drop 12 zero_data_frame)
        (set_rx [x07] (open_state (bad_marker_frame ++ [x07]))))
  = tx (open_state (bad_marker_frame ++ [x07])).
Proof.
  apply (gt511C3_recv_data_failure_keeps_destination [xff; xff; xff; xff; xff; xff] 6
           (open_state (bad_marker_frame ++ [x07]))).
  apply (gt511C3_recv_data_exact [xff; xff; xff; xff; xff; xff] 6 (open_state (bad_marker_frame ++ [x07]))
           reset_config bad_marker_frame [x07]);
    try reflexivity; try (simpl; lia); vm_compute; reflexivity.
Defined.

(** ** Handlers: what a whole call does *)

Lemma gt511C3_init_reset_ok `{Platform} (device_config : GT511C3_DeviceConfig)
    (st : driver_state) :
  uart_base_pa device_config <> 0 ->
  imx_uart_init_ex (uart_base_pa device_config)
    {| clock_hz := uart_clock_hz device_config; cfg_baud_rate := GT511C3_RESET_BAUDRATE |}
  = true ->
  gt511C3_init device_config true st
  = Ret TEE_SUCCESS
      (set_serial (Some {| clock_hz := uart_clock_hz device_config;
                           cfg_baud_rate := GT511C3_RESET_BAUDRATE |}) st).
Proof.
  intros Hbase Hinit. unfold gt511C3_init. cbv zeta. cbn [cfg_baud_rate clock_hz].
  change (GT511C3_RESET_BAUDRATE >? GT511C3_MAX_BAUDRATE) with false. cbv iota.
  destruct (Z.eqb_spec (uart_base_pa device_config) 0) as [Hz|_]; [contradiction|].
  simpl andb. cbv iota. rewrite Hinit. reflexivity.
Qed.

Lemma open_command_bytes (device_info : option (list byte)) :
  option_map command_bytes (checksummed (open_command device_info))
  = Some (bytes_of [0x55; 0xAA; 0x01; 0x00;
                    match device_info with Some _ => 0x01 | None => 0x00 end;
                    0x00; 0x00; 0x00; 0x01; 0x00;
                    match device_info with Some _ => 0x02 | None => 0x01 end; 0x01]).
Proof. destruct device_info; vm_compute; reflexivity. Qed.

Lemma close_command_bytes :
  option_map command_bytes (checksummed (GT511C3_INIT_COMMAND GT511C3_CMD_CLOSE))
  = Some (bytes_of [0x55; 0xAA; 0x01; 0x00; 0x00; 0x00; 0x00; 0x00;
                    0x02; 0x00; 0x02; 0x01]).
Proof. vm_compute. reflexivity. Qed.

(** X11: opening without a device-info buffer, on a platform whose UART
    comes up, sets [serial] to the UART at 9600 baud (whatever rate the
    configuration asks for), sends the OPEN frame with parameter 0, consumes
    the twelve bytes of the response and returns the status derived from
    them; no data frame is read. *)
Theorem gt511c3_open_without_info `{Platform} (device_config : GT511C3_DeviceConfig)
    (st : driver_state) (frame rest : list byte) :
  uart_base_pa device_config <> 0 ->
  imx_uart_init_ex (uart_base_pa device_config)
    {| clock_hz := uart_clock_hz device_config; cfg_baud_rate := GT511C3_RESET_BAUDRATE |}
  = true ->
  rx st = frame ++ rest ->
  length frame = 12%nat ->
  exists st',
    gt511c3_open device_config None st = Ret (response_status frame, None) st' /\
    serial st' = Some {| clock_hz := uart_clock_hz device_config;
                         cfg_baud_rate := GT511C3_RESET_BAUDRATE |} /\
    rx st' = rest /\
    tx st' = tx st ++ bytes_of [0x55; 0xAA; 0x01; 0x00; 0x00; 0x00; 0x00; 0x00;
                                0x01; 0x00; 0x01; 0x01] /\
    data_frame st' = data_frame st.
Proof.
  intros Hbase Hinit Hrx Hframe.
  set (uart := {| clock_hz := uart_clock_hz device_config;
                  cfg_baud_rate := GT511C3_RESET_BAUDRATE |}).
  destruct (gt511C3_send_cmd_exact (open_command None) (set_serial (Some uart) st) uart
              frame rest eq_refl Hrx Hframe) as (cmd' & Hcs & Hsend).
  pose proof (open_command_bytes None) as Hbytes. rewrite Hcs in Hbytes.
  cbn [option_map] in Hbytes. apply (inj Some) in Hbytes.
  exists (set_rx rest (set_tx (tx st ++ command_bytes cmd') (set_serial (Some uart) st))).
  split; [|repeat split].
  - unfold gt511c3_open, mbind, driver_bind, bind. cbv zeta.
    rewrite (gt511C3_init_reset_ok device_config st Hbase Hinit).
    change (failed TEE_SUCCESS) with false. cbv beta iota.
    fold uart. rewrite Hsend.
    destruct (failed (response_status frame)); reflexivity.
  - simpl. rewrite Hbytes. reflexivity.
Qed.

Lemma gt511c3_open_without_info_witness :
  exists st',
    gt511c3_open (H := example_platform) example_config None
      (closed_state (ack_frame ++ [x07]))
    = Ret (response_status ack_frame, None) st' /\
    serial st' = Some {| clock_hz := uart_clock_hz example_config;
                         cfg_baud_rate := GT511C3_RESET_BAUDRATE |} /\
    rx st' = [x07] /\
    tx st' = tx (closed_state (ack_frame ++ [x07]))
             ++ bytes_of [0x55; 0xAA; 0x01; 0x00; 0x00; 0x00; 0x00; 0x00;
                          0x01; 0x00; 0x01; 0x01] /\
    data_frame st' = data_frame (closed_state (ack_frame ++ [x07])).
Proof.
  apply (@gt511c3_open_without_info example_platform example_config
           (closed_state (ack_frame ++ [x07])) ack_frame [x07]);
    [vm_compute; discriminate | reflexivity | reflexivity | reflexivity].
Defined.

(** X12: opening with a device-info buffer sends the OPEN frame with
    parameter 1 and, once the response is accepted, reads one data frame
    sized for the device-info record; when that frame is well formed the
    call succeeds and the buffer holds exactly the payload of the frame. *)
Theorem gt511c3_open_with_info `{Platform} (device_config : GT511C3_DeviceConfig)
    (info : list byte) (st : driver_state) (rsp dframe rest : list byte) :
  uart_base_pa device_config <> 0 ->
  imx_uart_init_ex (uart_base_pa device_config)
    {| clock_hz := uart_clock_hz device_config; cfg_baud_rate := GT511C3_RESET_BAUDRATE |}
  = true ->
  0 <= sizeof_GT511C3_DeviceInfo <= 65529 ->
  Z.of_nat (length info) = sizeof_GT511C3_DeviceInfo ->
  Z.of_nat (length (data_frame st)) = 65536 ->
  rx st = rsp ++ dframe ++ rest ->
  length rsp = 12%nat ->
  response_status rsp = TEE_SUCCESS ->
  Z.of_nat (length dframe) = sizeof_GT511C3_DeviceInfo + 6 ->
  data_frame_status dframe = TEE_SUCCESS ->
  exists st',
    gt511c3_open device_config (Some info) st
    = Ret (TEE_SUCCESS, Some (take (length info) (drop 4 dframe))) st' /\
    serial st' = Some {| clock_hz := uart_clock_hz device_config;
                         cfg_baud_rate := GT511C3_RESET_BAUDRATE |} /\
    rx st' = rest /\
    tx st' = tx st ++ bytes_of [0x55; 0xAA; 0x01; 0x00; 0x01; 0x00; 0x00; 0x00;
                                0x01; 0x00; 0x02; 0x01].
Proof.
  intros Hbase Hinit Hsize Hinfo Hdf Hrx Hrsp Hack Hdlen Hdok.
  set (uart := {| clock_hz := uart_clock_hz device_config;
                  cfg_baud_rate := GT511C3_RESET_BAUDRATE |}).
  destruct (gt511C3_send_cmd_exact (open_command (Some info)) (set_serial (Some uart) st)
              uart rsp (dframe ++ rest) eq_refl Hrx Hrsp) as (cmd' & Hcs & Hsend).
  pose proof (open_command_bytes (Some info)) as Hbytes. rewrite Hcs in Hbytes.
  cbn [option_map] in Hbytes. apply (inj Some) in Hbytes. rewrite Hack in Hsend.
  exists (set_data_frame (dframe ++ drop (length dframe) (data_frame st))
            (set_rx rest (set_tx (tx st ++ command_bytes cmd') (set_serial (Some uart) st)))).
  split; [|repeat split].
  - unfold gt511c3_open, mbind, driver_bind, bind. cbv zeta.
    rewrite (gt511C3_init_reset_ok device_config st Hbase Hinit).
    change (failed TEE_SUCCESS) with false. cbv beta iota.
    fold uart. rewrite Hsend.
    change (failed TEE_SUCCESS) with false. cbv beta iota.
    rewrite (gt511C3_recv_data_exact info sizeof_GT511C3_DeviceInfo _ uart dframe rest)
      by (reflexivity || assumption || lia).
    rewrite Hdok. change (failed TEE_SUCCESS) with false. cbv beta iota.
    rewrite <- Hinfo, Nat2Z.id, drop_all, app_nil_r. reflexivity.
  - simpl. rewrite Hbytes. reflexivity.
Qed.

Lemma gt511c3_open_with_info_witness :
  exists st',
    gt511c3_open (H := example_platform) example_config (Some (replicate 24 xff))
      (closed_state (ack_frame ++ device_info_frame ++ [x07]))
    = Ret (TEE_SUCCESS,
           Some (take (length (replicate 24 xff)) (drop 4 device_info_frame))) st' /\
    serial st' = Some {| clock_hz := uart_clock_hz example_config;
                         cfg_baud_rate := GT511C3_RESET_BAUDRATE |} /\
    rx st' = [x07] /\
    tx st' = tx (closed_state (ack_frame ++ device_info_frame ++ [x07]))
             ++ bytes_of [0x55; 0xAA; 0x01; 0x00; 0x01; 0x00; 0x00; 0x00;
                          0x01; 0x00; 0x02; 0x01].
Proof.
  apply (@gt511c3_open_with_info example_platform example_config (replicate 24 xff)
           (closed_state (ack_frame ++ device_info_frame ++ [x07]))
           ack_frame device_info_frame [x07]);
    try reflexivity; try (vm_compute; discriminate); try (simpl; lia);
    vm_compute; reflexivity.
Defined.

Lemma putc_all_state (payload : list byte) (st st' : driver_state) :
  putc_all payload st = Ret tt st' ->
  serial st' = serial st /\ rx st' = rx st /\ data_frame st' = data_frame st.
Proof.
  revert st. induction payload as [|c payload IH]; intros st; simpl.
  - intros Hret. injection Hret as <-. repeat split.
  - unfold mbind, driver_bind, bind, serial_putc.
    destruct (serial st) eqn:Hserial; [|discriminate].
    intros Hret. apply IH in Hret. simpl in Hret. rewrite Hserial in Hret. exact Hret.
Qed.

Lemma gt511C3_send_cmd_state (cmd : gt511C3_command) (rsp : option (list byte))
    (st : driver_state) (status : TEE_Result) (st' : driver_state) :
  gt511C3_send_cmd cmd rsp st = Ret status st' ->
  serial st' = serial st /\ data_frame st' = data_frame st.
Proof.
  unfold gt511C3_send_cmd. rewrite checksummed_eq.
  unfold mbind, driver_bind, bind.
  destruct (putc_all _ st) as [[] st1| |] eqn:Hput; [|discriminate|discriminate].
  apply putc_all_state in Hput. destruct Hput as (Hs & _ & Hd).
  unfold gt511C3_recv_response, mbind, driver_bind, bind.
  destruct (gt511C3_recv _ _ st1) as [[[s m] len] st2| |] eqn:Hrecv;
    [|discriminate|discriminate].
  apply gt511C3_recv_state in Hrecv. destruct Hrecv as [rest ->].
  assert (Hres : forall r : TEE_Result * list byte,
             (let '(status0, _) := r in
              if failed status0 then ret status0 else ret TEE_SUCCESS) (set_rx rest st1)
             = Ret status st' ->
             serial st' = serial st /\ data_frame st' = data_frame st).
  { intros [r b]. destruct (failed r); intros Hret; injection Hret as _ <-;
      simpl; split; assumption. }
  destruct (failed s); [intros Hret; exact (Hres (s, m) Hret)|].
  destruct (_ || _); [intros Hret; exact (Hres (TEE_ERROR_COMMUNICATION, m) Hret)|].
  destruct (_ =? _); intros Hret;
    [exact (Hres (gt511C3_to_tee (rsp_parameter m), m) Hret)
    |exact (Hres (TEE_SUCCESS, m) Hret)].
Qed.

Lemma gt511C3_recv_data_state (data : list byte) (length_ : Z) (st : driver_state)
    (r : TEE_Result * list byte) (st' : driver_state) :
  gt511C3_recv_data data length_ st = Ret r st' -> serial st' = serial st.
Proof.
  unfold gt511C3_recv_data. cbv zeta.
  destruct (_ >? _); [intros Hret; injection Hret as _ <-; reflexivity|].
  unfold mbind, driver_bind, bind, get_data_frame, put_data_frame.
  destruct (gt511C3_recv _ _ st) as [[[s frame] len] st1| |] eqn:Hrecv;
    [|discriminate|discriminate].
  apply gt511C3_recv_state in Hrecv. destruct Hrecv as [rest ->].
  destruct (failed s); [intros Hret; injection Hret as _ <-; reflexivity|].
  destruct (_ || _); [intros Hret; injection Hret as _ <-; reflexivity|].
  destruct (memcpy _ _ _); [|discriminate].
  intros Hret; injection Hret as _ <-; reflexivity.
Qed.

Lemma gt511C3_init_reset_cases `{Platform} (device_config : GT511C3_DeviceConfig)
    (st : driver_state) :
  gt511C3_init device_config true st = Ret TEE_ERROR_BAD_PARAMETERS st \/
  gt511C3_init device_config true st
  = Ret TEE_SUCCESS
      (set_serial (Some {| clock_hz := uart_clock_hz device_config;
                           cfg_baud_rate := GT511C3_RESET_BAUDRATE |}) st).
Proof.
  unfold gt511C3_init. cbv zeta. cbn [cfg_baud_rate clock_hz].
  change (GT511C3_RESET_BAUDRATE >? GT511C3_MAX_BAUDRATE) with false. cbv iota.
  destruct (true && (uart_base_pa device_config =? 0)); [left; reflexivity|].
  destruct (imx_uart_init_ex _ _); [right|left]; reflexivity.
Qed.

(** X13: [gt511c3_open] never clears [serial].  Whenever it returns, either
    the bring-up was refused ([TEE_ERROR_BAD_PARAMETERS], every global
    untouched), or [serial] is set to the UART at 9600 baud, and that
    also when the OPEN exchange or the device-info read failed. *)
Theorem gt511c3_open_keeps_serial `{Platform} (device_config : GT511C3_DeviceConfig)
    (device_info : option (list byte)) (st : driver_state)
    (status : TEE_Result) (info' : option (list byte)) (st' : driver_state) :
  gt511c3_open device_config device_info st = Ret (status, info') st' ->
  (status = TEE_ERROR_BAD_PARAMETERS /\ info' = device_info /\ st' = st) \/
  serial st' = Some {| clock_hz := uart_clock_hz device_config;
                       cfg_baud_rate := GT511C3_RESET_BAUDRATE |}.
Proof.
  unfold gt511c3_open, mbind, driver_bind, bind. cbv zeta.
  destruct (gt511C3_init_reset_cases device_config st) as [Hbad|Hok].
  - rewrite Hbad. change (failed TEE_ERROR_BAD_PARAMETERS) with true. cbv beta iota.
    intros Hret. injection Hret as <- <- <-. left. repeat split.
  - rewrite Hok. change (failed TEE_SUCCESS) with false. cbv beta iota.
    destruct (gt511C3_send_cmd _ None _) as [s st1| |] eqn:Hsend;
      [|discriminate|discriminate].
    apply gt511C3_send_cmd_state in Hsend. destruct Hsend as [Hs1 _].
    simpl in Hs1.
    destruct (failed s); [intros Hret; injection Hret as _ _ <-; right; exact Hs1|].
    destruct device_info as [info|];
      [|intros Hret; injection Hret as _ _ <-; right; exact Hs1].
    destruct (gt511C3_recv_data info _ st1) as [[s2 i2] st2| |] eqn:Hdata;
      [|discriminate|discriminate].
    apply gt511C3_recv_data_state in Hdata.
    intros Hret; injection Hret as _ _ <-. right. rewrite Hdata. exact Hs1.
Qed.

Lemma gt511c3_open_keeps_serial_witness :
  (TEE_ERROR_NO_DATA = TEE_ERROR_BAD_PARAMETERS /\
   @None (list byte) = None /\
   set_rx [] (set_tx (bytes_of [0x55; 0xAA; 0x01; 0x00; 0x00; 0x00; 0x00; 0x00;
                                0x01; 0x00; 0x01; 0x01])
                (set_serial (Some reset_config) (closed_state nack_db_is_empty_frame)))
   = closed_state nack_db_is_empty_frame) \/
  serial (set_rx [] (set_tx (bytes_of [0x55; 0xAA; 0x01; 0x00; 0x00; 0x00; 0x00; 0x00;
                                       0x01; 0x00; 0x01; 0x01])
                       (set_serial (Some reset_config)
                          (closed_state nack_db_is_empty_frame))))
  = Some {| clock_hz := uart_clock_hz example_config;
            cfg_baud_rate := GT511C3_RESET_BAUDRATE |}.
Proof.
  apply (@gt511c3_open_keeps_serial example_platform example_config None
           (closed_state nack_db_is_empty_frame) TEE_ERROR_NO_DATA None).
  reflexivity.
Defined.

Lemma gt511C3_recv_data_blocked (data : list byte) (N : Z) (st : driver_state)
    (cfg : imx_uart_config) :
  serial st = Some cfg ->
  0 <= N <= 65529 ->
  Z.of_nat (length (data_frame st)) = 65536 ->
  Z.of_nat (length (rx st)) < N + 6 ->
  gt511C3_recv_data data N st = Blocked.
Proof.
  intros Hserial HN Hdf Hline. unfold gt511C3_recv_data. cbv zeta.
  rewrite GT511C3_DATA_FRAME_SIZE_exact by lia.
  unfold frame_size, sizeof_gt511C3_data.
  destruct (Z.gtb_spec (5 - 1 + N + 2) sizeof_gt511C3_data_frame) as [Hgt|_];
    [change sizeof_gt511C3_data_frame with 65536 in Hgt; lia|].
  unfold mbind, driver_bind, bind, get_data_frame.
  rewrite (gt511C3_recv_blocked (data_frame st) (5 - 1 + N + 2) st cfg Hserial) by lia.
  reflexivity.
Qed.

(** X14: an execute call whose response is accepted and whose data frame
    is well formed returns success with the reply buffer holding exactly
    the payload of the data frame; it has sent the command frame built from
    [params[0]] and consumed the response and the data frame, nothing more. *)
Theorem gt511c3_cmd_exec_reply `{Platform} (params : nat -> TEE_Param)
    (st : driver_state) (cfg : imx_uart_config) (rsp dframe rest : list byte) :
  serial st = Some cfg ->
  Z.of_nat (length (data_frame st)) = 65536 ->
  0 <= memref_size (params 1%nat) <= 65529 ->
  Z.of_nat (length (memref_buffer (params 1%nat))) = memref_size (params 1%nat) ->
  rx st = rsp ++ dframe ++ rest ->
  length rsp = 12%nat ->
  response_status rsp = TEE_SUCCESS ->
  Z.of_nat (length dframe) = memref_size (params 1%nat) + 6 ->
  data_frame_status dframe = TEE_SUCCESS ->
  exists cmd st',
    checksummed (cmd_exec_command params) = Some cmd /\
    gt511c3_cmd_exec cmd_exec_exp_pt params st
    = Ret (TEE_SUCCESS, take (length (memref_buffer (params 1%nat))) (drop 4 dframe)) st' /\
    serial st' = Some cfg /\
    rx st' = rest /\
    tx st' = tx st ++ command_bytes cmd.
Proof.
  intros Hserial Hdf Hsize Hbuf Hrx Hrsp Hack Hdlen Hdok.
  destruct (gt511C3_send_cmd_exact (cmd_exec_command params) st cfg rsp (dframe ++ rest)
              Hserial Hrx Hrsp) as (cmd' & Hcs & Hsend).
  rewrite Hack in Hsend.
  exists cmd',
    (set_data_frame (dframe ++ drop (length dframe) (data_frame st))
       (set_rx rest (set_tx (tx st ++ command_bytes cmd') st))).
  split; [exact Hcs|]. split; [|repeat split; exact Hserial].
  unfold gt511c3_cmd_exec. cbv zeta. rewrite Z.eqb_refl.
  change (negb true) with false. cbv beta iota.
  unfold mbind, driver_bind, bind. rewrite Hsend.
  change (failed TEE_SUCCESS) with false. cbv beta iota.
  rewrite (gt511C3_recv_data_exact _ _ _ cfg dframe rest)
    by (reflexivity || assumption || lia).
  rewrite Hdok. change (failed TEE_SUCCESS) with false. cbv beta iota.
  rewrite <- Hbuf, Nat2Z.id, drop_all, app_nil_r. reflexivity.
Qed.

Lemma gt511c3_cmd_exec_reply_witness :
  exists cmd st',
    checksummed (cmd_exec_command (exec_params GT511C3_CMD_GET_ENROLL_COUNT 0 4)) = Some cmd /\
    gt511c3_cmd_exec (H := example_platform) (cmd_exec_exp_pt (H := example_platform))
      (exec_params GT511C3_CMD_GET_ENROLL_COUNT 0 4)
      (open_state (ack_frame ++ four_byte_data_frame ++ [x07]))
    = Ret (TEE_SUCCESS,
           take (length (memref_buffer (exec_params GT511C3_CMD_GET_ENROLL_COUNT 0 4 1%nat)))
             (drop 4 four_byte_data_frame)) st' /\
    serial st' = Some reset_config /\
    rx st' = [x07] /\
    tx st' = tx (open_state (ack_frame ++ four_byte_data_frame ++ [x07])) ++ command_bytes cmd.
Proof.
  apply (@gt511c3_cmd_exec_reply example_platform
           (exec_params GT511C3_CMD_GET_ENROLL_COUNT 0 4)
           (open_state (ack_frame ++ four_byte_data_frame ++ [x07])) reset_config
           ack_frame four_byte_data_frame [x07]);
    try reflexivity; try (simpl; lia); vm_compute; reflexivity.
Defined.

(** X15: once the response is accepted, an execute call looks at the
    reply size alone.  For a size of at most 65529 bytes it goes on to read
    a data frame, even when the reply buffer is empty: with fewer than
    [memref.size + 6] bytes behind the response (six for an empty buffer)
    the call never returns.  For a size above 65530 (whose frame does not
    wrap the 32-bit size) it returns [TEE_ERROR_SHORT_BUFFER] without
    reading anything behind the response. *)
Theorem gt511c3_cmd_exec_waits_for_data `{Platform} (params : nat -> TEE_Param)
    (st : driver_state) (cfg : imx_uart_config) (rsp tail : list byte) :
  serial st = Some cfg ->
  Z.of_nat (length (data_frame st)) = 65536 ->
  rx st = rsp ++ tail ->
  length rsp = 12%nat ->
  response_status rsp = TEE_SUCCESS ->
  (0 <= memref_size (params 1%nat) <= 65529 ->
   Z.of_nat (length tail) < memref_size (params 1%nat) + 6 ->
   gt511c3_cmd_exec cmd_exec_exp_pt params st = Blocked) /\
  (65530 < memref_size (params 1%nat) <= 4294967289 ->
   exists cmd,
     checksummed (cmd_exec_command params) = Some cmd /\
     gt511c3_cmd_exec cmd_exec_exp_pt params st
     = Ret (TEE_ERROR_SHORT_BUFFER, memref_buffer (params 1%nat))
           (set_rx tail (set_tx (tx st ++ command_bytes cmd) st))).
Proof.
  intros Hserial Hdf Hrx Hrsp Hack.
  destruct (gt511C3_send_cmd_exact (cmd_exec_command params) st cfg rsp tail
              Hserial Hrx Hrsp) as (cmd' & Hcs & Hsend).
  rewrite Hack in Hsend.
  assert (Hexec : gt511c3_cmd_exec cmd_exec_exp_pt params st
                  = gt511C3_recv_data (memref_buffer (params 1%nat))
                      (memref_size (params 1%nat))
                      (set_rx tail (set_tx (tx st ++ command_bytes cmd') st))).
  { unfold gt511c3_cmd_exec. cbv zeta. rewrite Z.eqb_refl.
    change (negb true) with false. cbv beta iota.
    unfold mbind, driver_bind, bind. rewrite Hsend. reflexivity. }
  rewrite Hexec. split.
  - intros Hsize Htail.
    apply (gt511C3_recv_data_blocked _ _ _ cfg); assumption.
  - intros Hsize. exists cmd'. split; [exact Hcs|].
    apply gt511C3_recv_data_size_check; [lia|].
    unfold frame_size, sizeof_gt511C3_data. lia.
Qed.

Lemma gt511c3_cmd_exec_waits_for_data_witness :
  gt511c3_cmd_exec (H := example_platform) (cmd_exec_exp_pt (H := example_platform))
    (exec_params 0x12 1 0) (open_state (ack_frame ++ [])) = Blocked.
Proof.
  apply (@gt511c3_cmd_exec_waits_for_data example_platform (exec_params 0x12 1 0)
           (open_state (ack_frame ++ [])) reset_config ack_frame []);
    try reflexivity; try (simpl; lia); vm_compute; reflexivity.
Defined.

(** X16: there is no timeout anywhere: with [serial] set and fewer than
    twelve bytes to come on the line, a command exchange, an execute call,
    a close and a session close all send their command and then never
    return. *)
Theorem short_response_blocks `{Platform} (st : driver_state) (cfg : imx_uart_config) :
  serial st = Some cfg ->
  Z.of_nat (length (rx st)) < 12 ->
  (forall cmd, gt511C3_send_cmd cmd None st = Blocked) /\
  (forall params, gt511c3_cmd_exec cmd_exec_exp_pt params st = Blocked) /\
  gt511c3_close st = Blocked /\
  pta_gt511c3_close_session st = Blocked.
Proof.
  intros Hserial Hline.
  assert (Hsend : forall cmd, gt511C3_send_cmd cmd None st = Blocked)
    by (intros cmd; apply (gt511C3_send_cmd_blocked cmd st cfg); assumption).
  split; [exact Hsend|]. split; [|split].
  - intros params. unfold gt511c3_cmd_exec. cbv zeta. rewrite Z.eqb_refl.
    change (negb true) with false. cbv beta iota.
    unfold mbind, driver_bind, bind. rewrite Hsend. reflexivity.
  - unfold gt511c3_close. cbv zeta. apply Hsend.
  - unfold pta_gt511c3_close_session, gt511c3_close, mbind, driver_bind, bind. cbv zeta.
    rewrite Hsend. reflexivity.
Qed.

Lemma short_response_blocks_witness :
  gt511c3_close (open_state (take 11 ack_frame)) = Blocked.
Proof.
  apply (@short_response_blocks example_platform (open_state (take 11 ack_frame))
           reset_config); [reflexivity | simpl; lia].
Defined.

(** X17: closing sends the CLOSE frame, consumes the twelve bytes of the
    response and hands back the status derived from them (the session
    entry point drops it); [serial] stays set whatever that status is, so
    the driver has no closed state to return to. *)
Theorem gt511c3_close_exchange (st : driver_state) (cfg : imx_uart_config)
    (frame rest : list byte) :
  serial st = Some cfg ->
  rx st = frame ++ rest ->
  length frame = 12%nat ->
  exists st',
    gt511c3_close st = Ret (response_status frame) st' /\
    pta_gt511c3_close_session st = Ret tt st' /\
    serial st' = Some cfg /\
    rx st' = rest /\
    tx st' = tx st ++ bytes_of [0x55; 0xAA; 0x01; 0x00; 0x00; 0x00; 0x00; 0x00;
                                0x02; 0x00; 0x02; 0x01] /\
    data_frame st' = data_frame st.
Proof.
  intros Hserial Hrx Hframe.
  destruct (gt511C3_send_cmd_exact (GT511C3_INIT_COMMAND GT511C3_CMD_CLOSE) st cfg
              frame rest Hserial Hrx Hframe) as (cmd' & Hcs & Hsend).
  pose proof close_command_bytes as Hbytes. rewrite Hcs in Hbytes.
  cbn [option_map] in Hbytes. apply (inj Some) in Hbytes.
  exists (set_rx rest (set_tx (tx st ++ command_bytes cmd') st)).
  split; [exact Hsend|]. split; [|repeat split].
  - unfold pta_gt511c3_close_session, gt511c3_close, mbind, driver_bind, bind. cbv zeta.
    rewrite Hsend. reflexivity.
  - exact Hserial.
  - simpl. rewrite Hbytes. reflexivity.
Qed.

Lemma gt511c3_close_exchange_witness :
  exists st',
    gt511c3_close (open_state (nack_db_is_empty_frame ++ [x07]))
    = Ret (response_status nack_db_is_empty_frame) st' /\
    pta_gt511c3_close_session (open_state (nack_db_is_empty_frame ++ [x07])) = Ret tt st' /\
    serial st' = Some reset_config /\
    rx st' = [x07] /\
    tx st' = tx (open_state (nack_db_is_empty_frame ++ [x07]))
             ++ bytes_of [0x55; 0xAA; 0x01; 0x00; 0x00; 0x00; 0x00; 0x00;
                          0x02; 0x00; 0x02; 0x01] /\
    data_frame st' = data_frame (open_state (nack_db_is_empty_frame ++ [x07])).
Proof.
  apply (gt511c3_close_exchange (open_state (nack_db_is_empty_frame ++ [x07])) reset_config
           nack_db_is_empty_frame [x07]); reflexivity.
Defined.

(** X18: closing a session in which the device was never initialised
    ([serial] still null) sends through the null handle: neither
    [gt511c3_close] nor [pta_gt511c3_close_session] produces a result. *)
Theorem close_before_open_faults (st : driver_state) :
  serial st = None ->
  gt511c3_close st = Fault /\ pta_gt511c3_close_session st = Fault.
Proof.
  intros Hserial.
  assert (Hclose : gt511c3_close st = Fault)
    by (unfold gt511c3_close; cbv zeta; apply gt511C3_send_cmd_closed, Hserial).
  split; [exact Hclose|].
  unfold pta_gt511c3_close_session, mbind, driver_bind, bind. rewrite Hclose. reflexivity.
Qed.

Lemma close_before_open_faults_witness :
  gt511c3_close (closed_state []) = Fault /\
  pta_gt511c3_close_session (closed_state []) = Fault.
Proof.
  apply (close_before_open_faults (closed_state [])). reflexivity.
Defined.

(** X19: when the bring-up is refused (a zero base address, or a UART that
    [imx_uart_init_ex] rejects) [gt511c3_open] returns
    [TEE_ERROR_BAD_PARAMETERS] at once: nothing is sent, nothing is read,
    [serial] and the device-info buffer are as before. *)
Theorem gt511c3_open_refused `{Platform} (device_config : GT511C3_DeviceConfig)
    (device_info : option (list byte)) (st : driver_state) :
  uart_base_pa device_config = 0 \/
  imx_uart_init_ex (uart_base_pa device_config)
    {| clock_hz := uart_clock_hz device_config; cfg_baud_rate := GT511C3_RESET_BAUDRATE |}
  = false ->
  gt511c3_open device_config device_info st
  = Ret (TEE_ERROR_BAD_PARAMETERS, device_info) st.
Proof.
  intros Hrefused.
  assert (Hinit : gt511C3_init device_config true st = Ret TEE_ERROR_BAD_PARAMETERS st).
  { unfold gt511C3_init. cbv zeta. cbn [cfg_baud_rate clock_hz].
    change (GT511C3_RESET_BAUDRATE >? GT511C3_MAX_BAUDRATE) with false. cbv iota.
    destruct (Z.eqb_spec (uart_base_pa device_config) 0) as [Hz|Hnz]; [reflexivity|].
    destruct Hrefused as [Hz|Hrej]; [contradiction|].
    simpl andb. cbv iota. rewrite Hrej. reflexivity. }
  unfold gt511c3_open, mbind, driver_bind, bind. cbv zeta.
  rewrite Hinit. reflexivity.
Qed.

Lemma gt511c3_open_refused_witness :
  gt511c3_open (H := example_platform)
    {| uart_base_pa := 0; uart_clock_hz := 80000000; baud_rate := 9600 |}
    None (closed_state ack_frame)
  = Ret (TEE_ERROR_BAD_PARAMETERS, None) (closed_state ack_frame).
Proof.
  apply (@gt511c3_open_refused example_platform
           {| uart_base_pa := 0; uart_clock_hz := 80000000; baud_rate := 9600 |}
           None (closed_state ack_frame)).
  left. reflexivity.
Defined.

(** ** A failed exchange and the data frame *)




